(** * go-smtpsrv: the e-mail decoder of [parser.go]

    A shallow embedding of [ParseEmail] and of the functions it is built
    from: the header field parser, the content decoder, the charset
    converter and the three multipart walkers.

    Go strings are byte sequences and are modelled by [string] (a list of
    8-bit [ascii]).  A Go call returning [(value, error)] is modelled by
    [result] when the two are exclusive and by a pair with an
    [option error] when the code returns both. *)

From Stdlib Require Import String Ascii List NArith Bool Arith Lia.
Import ListNotations.
Open Scope string_scope.

Set Implicit Arguments.

(** ** Errors and readers *)

Definition error := string.

Inductive result (A : Type) : Type :=
| Ok (a : A)
| Err (e : error).
Arguments Ok {A} a.
Arguments Err {A} e.

(** An [io.Reader], by what reading it to the end gives: the bytes, and
    the error (other than [io.EOF]) that ends the stream, if any. *)
Record Reader := mkReader { content : string; failure : option error }.

(** [bytes.NewReader] and [strings.NewReader]. *)
Definition NewReader (b : string) : Reader := mkReader b None.

(** [ioutil.ReadAll]: everything read, together with the error met. *)
Definition ReadAll (r : Reader) : string * option error :=
  (content r, failure r).

Definition LF : ascii := "010"%char.
Definition CR : ascii := "013"%char.

(** ** Package [strings] *)
Module Strings.

Definition HasSuffix (s suffix : string) : bool :=
  (String.length suffix <=? String.length s)%nat
  && (substring (String.length s - String.length suffix) (String.length suffix) s
      =? suffix).

Definition TrimSuffix (s suffix : string) : string :=
  if HasSuffix s suffix
  then substring 0 (String.length s - String.length suffix) s
  else s.

Fixpoint inCutset (c : ascii) (cutset : string) : bool :=
  match cutset with
  | EmptyString => false
  | String d rest => (c =? d)%char || inCutset c rest
  end.

Fixpoint TrimLeft (s cutset : string) : string :=
  match s with
  | EmptyString => EmptyString
  | String c t => if inCutset c cutset then TrimLeft t cutset else s
  end.

Fixpoint TrimRight (s cutset : string) : string :=
  match s with
  | EmptyString => EmptyString
  | String c t =>
      match TrimRight t cutset with
      | EmptyString => if inCutset c cutset then EmptyString else String c EmptyString
      | t' => String c t'
      end
  end.

(** [strings.Trim] for a cutset of ASCII bytes (every cutset of
    [parser.go] is one). *)
Definition Trim (s cutset : string) : string :=
  TrimLeft (TrimRight s cutset) cutset.

(** [strings.Split] for a one-byte separator. *)
Fixpoint Split (s : string) (sep : ascii) : list string :=
  match s with
  | EmptyString => [EmptyString]
  | String c t =>
      if (c =? sep)%char then EmptyString :: Split t sep
      else match Split t sep with
           | w :: ws => String c w :: ws
           | [] => [String c EmptyString]
           end
  end.

(** [strings.Join]. *)
Fixpoint Join (elems : list string) (sep : string) : string :=
  match elems with
  | [] => EmptyString
  | [w] => w
  | w :: ws => w ++ sep ++ Join ws sep
  end.

Fixpoint mapBytes (f : ascii -> ascii) (s : string) : string :=
  match s with
  | EmptyString => EmptyString
  | String c t => String (f c) (mapBytes f t)
  end.

Fixpoint isASCII (s : string) : bool :=
  match s with
  | EmptyString => true
  | String c t => (N_of_ascii c <? 128)%N && isASCII t
  end.

Definition lowerByte (c : ascii) : ascii :=
  let n := N_of_ascii c in
  if ((65 <=? n) && (n <=? 90))%N then ascii_of_N (n + 32) else c.

(** The cutset of [asciiSpace]: space, tab, newline, vertical tab, form
    feed, carriage return. *)
Definition asciiSpace : string :=
  String " " (String "009" (String "010" (String "011" (String "012"
    (String "013" EmptyString))))).

End Strings.

(** ** Package [encoding/base64], [StdEncoding] *)
Module Base64.

Definition encodeStd : string :=
  "ABCDEFGHIJKLMNOPQRSTUVWXYZabcdefghijklmnopqrstuvwxyz0123456789+/".

Definition StdPadding : ascii := "="%char.

Definition byte (n : N) : ascii := ascii_of_N (N.land n 255).

(** [enc.encode[v]]. *)
Definition encodeChar (v : N) : ascii :=
  match String.get (N.to_nat v) encodeStd with
  | Some c => c
  | None => StdPadding
  end.

Fixpoint indexFrom (c : ascii) (alphabet : string) (i : N) : option N :=
  match alphabet with
  | EmptyString => None
  | String d rest => if (c =? d)%char then Some i else indexFrom c rest (N.succ i)
  end.

(** [enc.decodeMap[c]], with [None] for the table's 0xFF entries. *)
Definition decodeMap (c : ascii) : option N := indexFrom c encodeStd 0.

(** The sextet of [val] at bit [k]: [val>>k&0x3F]. *)
Definition sextet (val k : N) : N := N.land (N.shiftr val k) 63.

(** [Encoding.Encode]: three bytes give four characters, the last one or
    two bytes are padded. *)
Fixpoint Encode (src : list ascii) : list ascii :=
  match src with
  | b0 :: b1 :: b2 :: rest =>
      let val := N.lor (N.lor (N.shiftl (N_of_ascii b0) 16)
                              (N.shiftl (N_of_ascii b1) 8)) (N_of_ascii b2) in
      encodeChar (N.land (N.shiftr val 18) 63)
      :: encodeChar (N.land (N.shiftr val 12) 63)
      :: encodeChar (N.land (N.shiftr val 6) 63)
      :: encodeChar (N.land val 63)
      :: Encode rest
  | [b0; b1] =>
      let val := N.lor (N.shiftl (N_of_ascii b0) 16) (N.shiftl (N_of_ascii b1) 8) in
      [encodeChar (N.land (N.shiftr val 18) 63);
       encodeChar (N.land (N.shiftr val 12) 63);
       encodeChar (N.land (N.shiftr val 6) 63);
       StdPadding]
  | [b0] =>
      let val := N.shiftl (N_of_ascii b0) 16 in
      [encodeChar (N.land (N.shiftr val 18) 63);
       encodeChar (N.land (N.shiftr val 12) 63);
       StdPadding; StdPadding]
  | [] => []
  end.

Definition EncodeToString (src : string) : string :=
  string_of_list_ascii (Encode (list_ascii_of_string src)).

Definition CorruptInputError : error := "illegal base64 data".

Definition quantum (v0 v1 v2 v3 : N) : N :=
  N.lor (N.lor (N.lor (N.shiftl v0 18) (N.shiftl v1 12)) (N.shiftl v2 6)) v3.

(** [Encoding.decodeQuantum], quantum after quantum: padding is accepted
    in the last quantum only, and a short last quantum is corrupt input. *)
Fixpoint Decode (src : list ascii) : result (list ascii) :=
  match src with
  | [] => Ok []
  | c0 :: c1 :: c2 :: c3 :: rest =>
      match decodeMap c0, decodeMap c1, decodeMap c2, decodeMap c3 with
      | Some v0, Some v1, Some v2, Some v3 =>
          let val := quantum v0 v1 v2 v3 in
          match Decode rest with
          | Ok out => Ok (byte (N.shiftr val 16) :: byte (N.shiftr val 8) :: byte val :: out)
          | Err e => Err e
          end
      | Some v0, Some v1, Some v2, None =>
          let val := quantum v0 v1 v2 0 in
          match rest with
          | [] => if (c3 =? StdPadding)%char
                  then Ok [byte (N.shiftr val 16); byte (N.shiftr val 8)]
                  else Err CorruptInputError
          | _ => Err CorruptInputError
          end
      | Some v0, Some v1, None, _ =>
          let val := quantum v0 v1 0 0 in
          match rest with
          | [] => if ((c2 =? StdPadding) && (c3 =? StdPadding))%char
                  then Ok [byte (N.shiftr val 16)]
                  else Err CorruptInputError
          | _ => Err CorruptInputError
          end
      | _, _, _, _ => Err CorruptInputError
      end
  | _ => Err CorruptInputError
  end.

(** The [newlineFilteringReader] under [base64.NewDecoder]. *)
Definition filterNewlines (src : list ascii) : list ascii :=
  filter (fun c => negb ((c =? CR)%char || (c =? LF)%char)) src.

(** [base64.NewDecoder(StdEncoding, r)]: a reader of the decoded bytes; it
    ends in the source's error, or in a corrupt-input error. *)
Definition NewDecoder (r : Reader) : Reader :=
  match Decode (filterNewlines (list_ascii_of_string (content r))) with
  | Ok out => mkReader (string_of_list_ascii out) (failure r)
  | Err e => mkReader EmptyString (Some e)
  end.

End Base64.

(** ** Data model *)

(** [mail.Address]. *)
Record Address := mkAddress { Name : string; Addr : string }.

(** [mail.Header] and [textproto.MIMEHeader]: canonical field name to the
    values of the field, in order. *)
Definition MIMEHeader := list (string * list string).

(** The parameter map returned by [mime.ParseMediaType]. *)
Definition Params := list (string * string).

(** A [multipart.Part]: its header, what [FileName()] answers and the
    reader of its body. *)
Record Part := mkPart {
  part_Header : MIMEHeader;
  part_FileName : string;
  part_body : Reader
}.

Record Attachment := mkAttachment {
  at_Filename : string;
  at_ContentType : string;
  at_Data : Reader
}.

Record EmbeddedFile := mkEmbeddedFile {
  ef_CID : string;
  ef_ContentType : string;
  ef_Data : Reader
}.

(** ** The packages [parser.go] imports

    The Go standard library, [golang.org/x/text] and [chardet] are not part
    of the repository: the functions used from them are the fields of
    [GoLib], and every theorem holds for every such library. *)
Class GoLib := {
  (** [time.Time] and its zero value *)
  Time : Type;
  zeroTime : Time;
  (** [strings.ToLower] and [strings.TrimSpace] on a string that has a
      byte outside ASCII (the ASCII case is [Strings.ToLower] below) *)
  unicode_ToLower : string -> string;
  unicode_TrimSpace : string -> string;
  mail_ReadMessage : Reader -> result (MIMEHeader * Reader);
  mail_ParseAddress : string -> result Address;
  mail_ParseAddressList : string -> result (list Address);
  (** [time.Parse layout value] *)
  time_Parse : string -> string -> result Time;
  mime_ParseMediaType : string -> result (string * Params);
  (** [(&mime.WordDecoder{CharsetReader: f}).Decode] *)
  mime_WordDecoder_Decode :
    (string -> Reader -> result Reader) -> string -> result string;
  (** [multipart.NewReader(r, boundary)]: the parts [NextPart] returns
      until it answers [io.EOF] ([None]) or another error *)
  multipart_NewReader : Reader -> string -> list Part * option error;
  quotedprintable_NewReader : Reader -> Reader;
  (** [ianaindex.MIME.Encoding(name)]: an error, or an encoding, which
      the code uses through [transform.NewReader(input, e.NewDecoder())]
      only (a registered name for which the package has no encoding is
      taken to be an error) *)
  ianaindex_MIME_Encoding : string -> result (Reader -> Reader);
  (** [chardet.NewTextDetector().DetectBest(b)], its [Charset] field *)
  chardet_DetectBest : string -> result string
}.

Module TextProto.

(** [validHeaderFieldByte]: the token characters of RFC 7230. *)
Definition validHeaderFieldByte (c : ascii) : bool :=
  let n := N_of_ascii c in
  ((48 <=? n) && (n <=? 57) || (65 <=? n) && (n <=? 90)
   || (97 <=? n) && (n <=? 122))%N
  || Strings.inCutset c "!#$%&'*+-.^_`|~".

Fixpoint allValid (s : string) : bool :=
  match s with
  | EmptyString => true
  | String c t => validHeaderFieldByte c && allValid t
  end.

Fixpoint canonical (upper : bool) (s : string) : string :=
  match s with
  | EmptyString => EmptyString
  | String c t =>
      let n := N_of_ascii c in
      let c' :=
        if (upper && (97 <=? n) && (n <=? 122))%N then ascii_of_N (n - 32)
        else if (negb upper && (65 <=? n) && (n <=? 90))%N then ascii_of_N (n + 32)
        else c in
      String c' (canonical (c' =? "-")%char t)
  end.

(** [textproto.CanonicalMIMEHeaderKey]. *)
Definition CanonicalMIMEHeaderKey (s : string) : string :=
  if allValid s then canonical true s else s.

Fixpoint lookup (h : MIMEHeader) (key : string) : option (list string) :=
  match h with
  | [] => None
  | (k, vs) :: rest => if k =? key then Some vs else lookup rest key
  end.

(** [Header.Get]: the first value of the field, or the empty string. *)
Definition Get (h : MIMEHeader) (key : string) : string :=
  match lookup h (CanonicalMIMEHeaderKey key) with
  | Some (v :: _) => v
  | _ => EmptyString
  end.

End TextProto.

(** [params[name]]: the empty string when the map has no such key. *)
Fixpoint param (params : Params) (name : string) : string :=
  match params with
  | [] => EmptyString
  | (k, v) :: rest => if k =? name then v else param rest name
  end.

(** ** [parser.go] *)

Definition contentTypeMultipartMixed := "multipart/mixed".
Definition contentTypeMultipartAlternative := "multipart/alternative".
Definition contentTypeMultipartRelated := "multipart/related".
Definition contentTypeTextHtml := "text/html".
Definition contentTypeTextPlain := "text/plain".

(** The newline the bodies are trimmed of, and the cutset of the header
    parser (a space and a newline). *)
Definition newline : string := String LF EmptyString.
Definition spaceNewline : string := String " " newline.

(** [reSubjectCharset.FindStringSubmatch], its first group: the regular
    expression is [=\?([a-zA-Z0-9-_]+)\?[bqBQ]\?], and the class of the
    group has no question mark, so that a match at a position takes the
    whole run of class characters. *)
Module SubjectCharset.

Definition inClass (c : ascii) : bool :=
  let n := N_of_ascii c in
  ((48 <=? n) && (n <=? 57) || (65 <=? n) && (n <=? 90)
   || (97 <=? n) && (n <=? 122))%N
  || (c =? "-")%char || (c =? "_")%char.

Fixpoint span (s : string) : string * string :=
  match s with
  | EmptyString => (EmptyString, EmptyString)
  | String c t =>
      if inClass c then let (run, rest) := span t in (String c run, rest)
      else (EmptyString, s)
  end.

Definition matchHere (s : string) : option string :=
  match s with
  | String "="%char (String "?"%char t) =>
      match span t with
      | (EmptyString, _) => None
      | (charset, String "?"%char (String e (String "?"%char _))) =>
          if Strings.inCutset e "bqBQ" then Some charset else None
      | _ => None
      end
  | _ => None
  end.

Fixpoint FindStringSubmatch (s : string) : option string :=
  match matchHere s with
  | Some charset => Some charset
  | None =>
      match s with
      | EmptyString => None
      | String _ t => FindStringSubmatch t
      end
  end.

End SubjectCharset.

Section Parser.
Context {L : GoLib}.

(** [strings.ToLower]: byte-wise on ASCII, the library's otherwise. *)
Definition ToLower (s : string) : string :=
  if Strings.isASCII s then Strings.mapBytes Strings.lowerByte s
  else unicode_ToLower s.

(** [strings.TrimSpace], likewise. *)
Definition TrimSpace (s : string) : string :=
  if Strings.isASCII s then Strings.Trim s Strings.asciiSpace
  else unicode_TrimSpace s.

Record Email := mkEmail {
  Header : MIMEHeader;
  Subject : string;
  Sender : option Address;
  From : list Address;
  ReplyTo : list Address;
  To : list Address;
  Cc : list Address;
  Bcc : list Address;
  Date : Time;
  MessageID : string;
  InReplyTo : list string;
  References : list string;
  ResentFrom : list Address;
  ResentSender : option Address;
  ResentTo : list Address;
  ResentDate : Time;
  ResentCc : list Address;
  ResentBcc : list Address;
  ResentMessageID : string;
  ContentType : string;
  Content : option Reader;
  HTMLBody : string;
  TextBody : string;
  Attachments : list Attachment;
  EmbeddedFiles : list EmbeddedFile;
  OriginalCharset : string
}.

(** Assignments to the fields [ParseEmail] writes. *)
Definition assign (e : Email) (h : MIMEHeader) (ct : string)
    (c : option Reader) (html text : string)
    (ats : list Attachment) (efs : list EmbeddedFile) : Email :=
  mkEmail h (Subject e) (Sender e) (From e) (ReplyTo e) (To e) (Cc e)
    (Bcc e) (Date e) (MessageID e) (InReplyTo e) (References e)
    (ResentFrom e) (ResentSender e) (ResentTo e) (ResentDate e)
    (ResentCc e) (ResentBcc e) (ResentMessageID e) ct c html text ats efs
    (OriginalCharset e).

Definition setHeader (e : Email) (h : MIMEHeader) : Email :=
  assign e h (ContentType e) (Content e) (HTMLBody e) (TextBody e)
    (Attachments e) (EmbeddedFiles e).
Definition setContentType (e : Email) (ct : string) : Email :=
  assign e (Header e) ct (Content e) (HTMLBody e) (TextBody e)
    (Attachments e) (EmbeddedFiles e).
Definition setContent (e : Email) (c : option Reader) : Email :=
  assign e (Header e) (ContentType e) c (HTMLBody e) (TextBody e)
    (Attachments e) (EmbeddedFiles e).
Definition setHTMLBody (e : Email) (html : string) : Email :=
  assign e (Header e) (ContentType e) (Content e) html (TextBody e)
    (Attachments e) (EmbeddedFiles e).
Definition setTextBody (e : Email) (text : string) : Email :=
  assign e (Header e) (ContentType e) (Content e) (HTMLBody e) text
    (Attachments e) (EmbeddedFiles e).
Definition setBodies (e : Email) (text html : string)
    (ats : list Attachment) (efs : list EmbeddedFile) : Email :=
  assign e (Header e) (ContentType e) (Content e) html text ats efs.

(** *** Charset converter *)

Definition convertToUtf8 (input : Reader) (charset : string) : result Reader :=
  let charset := ToLower charset in
  let charset :=
    if (charset =? "gb-18030") || (charset =? "gb18030") || (charset =? "gb2312")
    then "gbk" else charset in
  match ianaindex_MIME_Encoding charset with
  | Err e => Err e
  | Ok e => Ok (e input)
  end.

Definition convertToUtf8String (s charset : string) : string * option error :=
  match convertToUtf8 (NewReader s) charset with
  | Err e => (EmptyString, Some e)
  | Ok output => ReadAll output
  end.

(** *** Content decoder *)

Definition decodeContent (content : Reader) (encoding : string) : result Reader :=
  let enc := ToLower (TrimSpace encoding) in
  if enc =? "base64" then
    match ReadAll (Base64.NewDecoder content) with
    | (_, Some e) => Err e
    | (b, None) => Ok (NewReader b)
    end
  else if (enc =? "7bit") || (enc =? "8bit") || (enc =? "binary") then
    match ReadAll content with
    | (_, Some e) => Err e
    | (dd, None) => Ok (NewReader dd)
    end
  else if (enc =? "quoted-printable") || (enc =? "quotedprintable") then
    match ReadAll (quotedprintable_NewReader content) with
    | (_, Some e) => Err e
    | (b, None) => Ok (NewReader b)
    end
  else if enc =? "" then Ok content
  else Err ("unknown encoding: " ++ encoding).

(** *** Sentences of encoded words *)

Definition decodeMimeSentence (s : string) : string :=
  Strings.Join
    (fold_left
       (fun (decoded : list string) word =>
          let w :=
            match mime_WordDecoder_Decode
                    (fun charset input => convertToUtf8 input charset) word with
            | Ok w => w
            | Err _ =>
                match decoded with
                | [] => word
                | _ => " " ++ word
                end
            end in
          (decoded ++ [w])%list)
       (Strings.Split s " ") [])
    EmptyString.

Definition decodeHeaderMime (header : MIMEHeader) : result MIMEHeader :=
  Ok (map (fun field => (fst field, map decodeMimeSentence (snd field))) header).

(** *** Header field parser

    The methods of [headerParser] have value receivers: each call works on
    its own copy of [hp], so that an assignment to [hp.err] changes the
    copy of the callee only.  A method is modelled by a function from the
    receiver to its result and the callee's copy at return; what the
    caller does with that copy is what the Go caller does: nothing. *)

Record headerParser := mkHeaderParser {
  hp_header : MIMEHeader;
  hp_err : option error
}.

Definition setErr (hp : headerParser) (e : option error) : headerParser :=
  mkHeaderParser (hp_header hp) e.

Definition parseAddress (hp : headerParser) (s : string)
  : option Address * headerParser :=
  match hp_err hp with
  | Some _ => (None, hp)
  | None =>
      if negb (Strings.Trim s spaceNewline =? "") then
        match mail_ParseAddress s with
        | Ok ma => (Some ma, setErr hp None)
        | Err e => (None, setErr hp (Some e))
        end
      else (None, hp)
  end.

Definition parseAddressList (hp : headerParser) (s : string)
  : list Address * headerParser :=
  match hp_err hp with
  | Some _ => ([], hp)
  | None =>
      if negb (Strings.Trim s spaceNewline =? "") then
        match mail_ParseAddressList s with
        | Ok ma => (ma, setErr hp None)
        | Err e => ([], setErr hp (Some e))
        end
      else ([], hp)
  end.

Definition RFC1123Z := "Mon, 02 Jan 2006 15:04:05 -0700".

(** The layouts of [parseTime], in the order they are tried. *)
Definition formats : list string :=
  [ RFC1123Z;
    "Mon, 2 Jan 2006 15:04:05 -0700";
    RFC1123Z ++ " (MST)";
    "Mon, 2 Jan 2006 15:04:05 -0700 (MST)" ].

(** The loop of [parseTime]: [t] and [hp.err] are assigned by every
    attempt, and the first success returns. *)
Fixpoint tryFormats (fs : list string) (s : string) (t : Time)
    (hp : headerParser) : Time * headerParser :=
  match fs with
  | [] => (t, hp)
  | format :: rest =>
      match time_Parse format s with
      | Ok t' => (t', setErr hp None)
      | Err e => tryFormats rest s zeroTime (setErr hp (Some e))
      end
  end.

Definition parseTime (hp : headerParser) (s : string) : Time * headerParser :=
  match hp_err hp with
  | Some _ => (zeroTime, hp)
  | None =>
      if s =? "" then (zeroTime, hp)
      else tryFormats formats s zeroTime hp
  end.

Definition parseMessageId (hp : headerParser) (s : string) : string :=
  match hp_err hp with
  | Some _ => EmptyString
  | None => Strings.Trim s "<> "
  end.

Definition parseMessageIdList (hp : headerParser) (s : string) : list string :=
  match hp_err hp with
  | Some _ => []
  | None =>
      fold_left
        (fun (ids : list string) p =>
           if negb (Strings.Trim p spaceNewline =? "")
           then (ids ++ [parseMessageId hp p])%list
           else ids)
        (Strings.Split s " ") []
  end.

Definition createEmailFromHeader (header : MIMEHeader) : Email * option error :=
  let hp := mkHeaderParser header None in
  let get := TextProto.Get header in
  let email :=
    {| OriginalCharset :=
         match SubjectCharset.FindStringSubmatch (get "Subject") with
         | Some charset => charset
         | None => EmptyString
         end;
       Subject := decodeMimeSentence (get "Subject");
       From := fst (parseAddressList hp (get "From"));
       Sender := fst (parseAddress hp (get "Sender"));
       ReplyTo := fst (parseAddressList hp (get "Reply-To"));
       To := fst (parseAddressList hp (get "To"));
       Cc := fst (parseAddressList hp (get "Cc"));
       Bcc := fst (parseAddressList hp (get "Bcc"));
       Date := fst (parseTime hp (get "Date"));
       ResentFrom := fst (parseAddressList hp (get "Resent-From"));
       ResentSender := fst (parseAddress hp (get "Resent-Sender"));
       ResentTo := fst (parseAddressList hp (get "Resent-To"));
       ResentCc := fst (parseAddressList hp (get "Resent-Cc"));
       ResentBcc := fst (parseAddressList hp (get "Resent-Bcc"));
       ResentMessageID := parseMessageId hp (get "Resent-Message-ID");
       MessageID := parseMessageId hp (get "Message-ID");
       InReplyTo := parseMessageIdList hp (get "In-Reply-To");
       References := parseMessageIdList hp (get "References");
       ResentDate := fst (parseTime hp (get "Resent-Date"));
       Header := [];
       ContentType := EmptyString;
       Content := None;
       HTMLBody := EmptyString;
       TextBody := EmptyString;
       Attachments := [];
       EmbeddedFiles := [] |} in
  match hp_err hp with
  | Some e => (email, Some e)
  | None =>
      match decodeHeaderMime header with
      | Ok h => (setHeader email h, None)
      | Err e => (email, Some e)
      end
  end.

Definition parseContentType (contentTypeHeader : string)
  : result (string * Params) :=
  if contentTypeHeader =? "" then Ok (contentTypeTextPlain, [])
  else mime_ParseMediaType contentTypeHeader.

(** *** Parts that are files *)

Definition isEmbeddedFile (part : Part) : bool :=
  negb (TextProto.Get (part_Header part) "Content-Transfer-Encoding" =? "").

Definition decodeEmbeddedFile (part : Part) : result EmbeddedFile :=
  let cid := decodeMimeSentence (TextProto.Get (part_Header part) "Content-Id") in
  match decodeContent (part_body part)
          (TextProto.Get (part_Header part) "Content-Transfer-Encoding") with
  | Err e => Err e
  | Ok decoded =>
      Ok {| ef_CID := Strings.Trim cid "<>";
            ef_ContentType := TextProto.Get (part_Header part) "Content-Type";
            ef_Data := decoded |}
  end.

Definition isAttachment (part : Part) : bool :=
  negb (part_FileName part =? "").

Definition decodeAttachment (part : Part) : result Attachment :=
  let filename := decodeMimeSentence (part_FileName part) in
  match decodeContent (part_body part)
          (TextProto.Get (part_Header part) "Content-Transfer-Encoding") with
  | Err e => Err e
  | Ok decoded =>
      Ok {| at_Filename := filename;
            at_ContentType :=
              hd EmptyString
                 (Strings.Split (TextProto.Get (part_Header part) "Content-Type") ";");
            at_Data := decoded |}
  end.

(** *** Multipart walkers

    A walker returns its named results, the error among them; [None] is
    the walker that ran out of [fuel], the depth of nesting it may
    descend.  The loop over the parts is a recursion on the parts the
    multipart reader yields, threading the accumulators. *)

Definition Bodies : Type :=
  string * string * list EmbeddedFile * option error.

Definition MixedBodies : Type :=
  string * string * list Attachment * list EmbeddedFile * option error.

Fixpoint relatedParts (alternative : Reader -> string -> option Bodies)
    (parts : list Part) (ending : option error)
    (textBody htmlBody : string) (embeddedFiles : list EmbeddedFile)
  : option Bodies :=
  match parts with
  | [] => Some (textBody, htmlBody, embeddedFiles, ending)
  | part :: rest =>
      match mime_ParseMediaType (TextProto.Get (part_Header part) "Content-Type") with
      | Err e => Some (textBody, htmlBody, embeddedFiles, Some e)
      | Ok (contentType, params) =>
          if contentType =? contentTypeTextPlain then
            match ReadAll (part_body part) with
            | (_, Some e) => Some (textBody, htmlBody, embeddedFiles, Some e)
            | (ppContent, None) =>
                relatedParts alternative rest ending
                  (textBody ++ Strings.TrimSuffix ppContent newline)
                  htmlBody embeddedFiles
            end
          else if contentType =? contentTypeTextHtml then
            match ReadAll (part_body part) with
            | (_, Some e) => Some (textBody, htmlBody, embeddedFiles, Some e)
            | (ppContent, None) =>
                relatedParts alternative rest ending textBody
                  (htmlBody ++ Strings.TrimSuffix ppContent newline)
                  embeddedFiles
            end
          else if contentType =? contentTypeMultipartAlternative then
            match alternative (part_body part) (param params "boundary") with
            | None => None
            | Some (_, _, _, Some e) =>
                Some (textBody, htmlBody, embeddedFiles, Some e)
            | Some (tb, hb, ef, None) =>
                relatedParts alternative rest ending
                  (textBody ++ tb) (htmlBody ++ hb) (embeddedFiles ++ ef)%list
            end
          else if isEmbeddedFile part then
            match decodeEmbeddedFile part with
            | Err e => Some (textBody, htmlBody, embeddedFiles, Some e)
            | Ok ef =>
                relatedParts alternative rest ending textBody htmlBody
                  (embeddedFiles ++ [ef])%list
            end
          else
            Some (textBody, htmlBody, embeddedFiles,
                  Some ("Can't process multipart/related inner mime type: "
                        ++ contentType))
      end
  end.

Fixpoint alternativeParts (related : Reader -> string -> option Bodies)
    (parts : list Part) (ending : option error)
    (textBody htmlBody : string) (embeddedFiles : list EmbeddedFile)
  : option Bodies :=
  match parts with
  | [] => Some (textBody, htmlBody, embeddedFiles, ending)
  | part :: rest =>
      match mime_ParseMediaType (TextProto.Get (part_Header part) "Content-Type") with
      | Err e => Some (textBody, htmlBody, embeddedFiles, Some e)
      | Ok (contentType, params) =>
          if contentType =? contentTypeTextPlain then
            match decodeContent (part_body part)
                    (TextProto.Get (part_Header part) "Content-Transfer-Encoding") with
            | Err e => Some (textBody, htmlBody, embeddedFiles, Some e)
            | Ok newPart =>
                match ReadAll newPart with
                | (_, Some e) => Some (textBody, htmlBody, embeddedFiles, Some e)
                | (ppContent, None) =>
                    alternativeParts related rest ending
                      (textBody ++ Strings.TrimSuffix ppContent newline)
                      htmlBody embeddedFiles
                end
            end
          else if contentType =? contentTypeTextHtml then
            match decodeContent (part_body part)
                    (TextProto.Get (part_Header part) "Content-Transfer-Encoding") with
            | Err e => Some (textBody, htmlBody, embeddedFiles, Some e)
            | Ok newPart =>
                match ReadAll newPart with
                | (_, Some e) => Some (textBody, htmlBody, embeddedFiles, Some e)
                | (ppContent, None) =>
                    alternativeParts related rest ending textBody
                      (htmlBody ++ Strings.TrimSuffix ppContent newline)
                      embeddedFiles
                end
            end
          else if contentType =? contentTypeMultipartRelated then
            match related (part_body part) (param params "boundary") with
            | None => None
            | Some (_, _, _, Some e) =>
                Some (textBody, htmlBody, embeddedFiles, Some e)
            | Some (tb, hb, ef, None) =>
                alternativeParts related rest ending
                  (textBody ++ tb) (htmlBody ++ hb) (embeddedFiles ++ ef)%list
            end
          else if isEmbeddedFile part then
            match decodeEmbeddedFile part with
            | Err e => Some (textBody, htmlBody, embeddedFiles, Some e)
            | Ok ef =>
                alternativeParts related rest ending textBody htmlBody
                  (embeddedFiles ++ [ef])%list
            end
          else
            Some (textBody, htmlBody, embeddedFiles,
                  Some ("Can't process multipart/alternative inner mime type: "
                        ++ contentType))
      end
  end.

Fixpoint parseMultipartRelated (fuel : nat) (msg : Reader) (boundary : string)
  : option Bodies :=
  match fuel with
  | O => None
  | S fuel' =>
      let (parts, ending) := multipart_NewReader msg boundary in
      relatedParts (parseMultipartAlternative fuel') parts ending
        EmptyString EmptyString []
  end
with parseMultipartAlternative (fuel : nat) (msg : Reader) (boundary : string)
  : option Bodies :=
  match fuel with
  | O => None
  | S fuel' =>
      let (parts, ending) := multipart_NewReader msg boundary in
      alternativeParts (parseMultipartRelated fuel') parts ending
        EmptyString EmptyString []
  end.

Fixpoint mixedParts (alternative related : Reader -> string -> option Bodies)
    (parts : list Part) (ending : option error)
    (textBody htmlBody : string) (attachments : list Attachment)
    (embeddedFiles : list EmbeddedFile) : option MixedBodies :=
  match parts with
  | [] => Some (textBody, htmlBody, attachments, embeddedFiles, ending)
  | part :: rest =>
      match mime_ParseMediaType (TextProto.Get (part_Header part) "Content-Type") with
      | Err e => Some (textBody, htmlBody, attachments, embeddedFiles, Some e)
      | Ok (contentType, params) =>
          if contentType =? contentTypeMultipartAlternative then
            match alternative (part_body part) (param params "boundary") with
            | None => None
            | Some (tb, hb, ef, Some e) => Some (tb, hb, attachments, ef, Some e)
            | Some (tb, hb, ef, None) =>
                mixedParts alternative related rest ending tb hb attachments ef
            end
          else if contentType =? contentTypeMultipartRelated then
            match related (part_body part) (param params "boundary") with
            | None => None
            | Some (tb, hb, ef, Some e) => Some (tb, hb, attachments, ef, Some e)
            | Some (tb, hb, ef, None) =>
                mixedParts alternative related rest ending tb hb attachments ef
            end
          else if contentType =? contentTypeTextPlain then
            match decodeContent (part_body part)
                    (TextProto.Get (part_Header part) "Content-Transfer-Encoding") with
            | Err e => Some (textBody, htmlBody, attachments, embeddedFiles, Some e)
            | Ok newPart =>
                match ReadAll newPart with
                | (_, Some e) =>
                    Some (textBody, htmlBody, attachments, embeddedFiles, Some e)
                | (ppContent, None) =>
                    mixedParts alternative related rest ending
                      (textBody ++ Strings.TrimSuffix ppContent newline)
                      htmlBody attachments embeddedFiles
                end
            end
          else if contentType =? contentTypeTextHtml then
            match decodeContent (part_body part)
                    (TextProto.Get (part_Header part) "Content-Transfer-Encoding") with
            | Err e => Some (textBody, htmlBody, attachments, embeddedFiles, Some e)
            | Ok newPart =>
                match ReadAll newPart with
                | (_, Some e) =>
                    Some (textBody, htmlBody, attachments, embeddedFiles, Some e)
                | (ppContent, None) =>
                    mixedParts alternative related rest ending textBody
                      (htmlBody ++ Strings.TrimSuffix ppContent newline)
                      attachments embeddedFiles
                end
            end
          else if isAttachment part then
            match decodeAttachment part with
            | Err e => Some (textBody, htmlBody, attachments, embeddedFiles, Some e)
            | Ok at' =>
                mixedParts alternative related rest ending textBody htmlBody
                  (attachments ++ [at'])%list embeddedFiles
            end
          else
            Some (textBody, htmlBody, attachments, embeddedFiles,
                  Some ("Unknown multipart/mixed nested mime type: " ++ contentType))
      end
  end.

Definition parseMultipartMixed (fuel : nat) (msg : Reader) (boundary : string)
  : option MixedBodies :=
  match fuel with
  | O => None
  | S fuel' =>
      let (parts, ending) := multipart_NewReader msg boundary in
      mixedParts (parseMultipartAlternative fuel') (parseMultipartRelated fuel')
        parts ending EmptyString EmptyString [] []
  end.

(** *** Message assembler *)

(** What [ParseEmail] returns: the [*Email] ([None] for [nil]) and the
    error. *)
Definition Parsed : Type := option Email * option error.

(** The [switch] of [ParseEmail] on the content type: a [return] from
    inside a case ([inl]), or the e-mail and the [err] that reach the
    statement after the switch ([inr]). *)
Definition parseBody (fuel : nat) (email : Email) (contentType : string)
    (params : Params) (header : MIMEHeader) (body : Reader)
  : option (Parsed + Email * option error) :=
  let encoding := TextProto.Get header "Content-Transfer-Encoding" in
  if contentType =? contentTypeMultipartMixed then
    match parseMultipartMixed fuel body (param params "boundary") with
    | None => None
    | Some (tb, hb, ats, efs, err) => Some (inr (setBodies email tb hb ats efs, err))
    end
  else if contentType =? contentTypeMultipartAlternative then
    match parseMultipartAlternative fuel body (param params "boundary") with
    | None => None
    | Some (tb, hb, efs, err) =>
        Some (inr (setBodies email tb hb (Attachments email) efs, err))
    end
  else if contentType =? contentTypeMultipartRelated then
    match parseMultipartRelated fuel body (param params "boundary") with
    | None => None
    | Some (tb, hb, efs, err) =>
        Some (inr (setBodies email tb hb (Attachments email) efs, err))
    end
  else if contentType =? contentTypeTextPlain then
    match decodeContent body encoding with
    | Err e => Some (inl (Some email, Some e))
    | Ok newPart =>
        let (message, _) := ReadAll newPart in
        Some (inr (setTextBody email (Strings.TrimSuffix message newline), None))
    end
  else if contentType =? contentTypeTextHtml then
    match decodeContent body encoding with
    | Err e => Some (inl (Some email, Some e))
    | Ok newPart =>
        match ReadAll newPart with
        | (_, Some e) => Some (inl (Some email, Some e))
        | (message, None) =>
            Some (inr (setHTMLBody email (Strings.TrimSuffix message newline), None))
        end
    end
  else
    match decodeContent body encoding with
    | Err e => Some (inr (setContent email None, Some e))
    | Ok c => Some (inr (setContent email (Some c), None))
    end.

(** The charset resolution of one body (lines 77 to 86 for [TextBody],
    87 to 96 for [HTMLBody]): the new body and the new [err]. *)
Definition resolveCharset (originalCharset body : string) (err : option error)
  : string * option error :=
  if negb (body =? "") then
    if negb (originalCharset =? "") then convertToUtf8String body originalCharset
    else
      match chardet_DetectBest body with
      | Ok charset => convertToUtf8String body charset
      | Err _ => (body, err)
      end
  else (body, err).

Definition resolveCharsets (email : Email) (err : option error) : Parsed :=
  let (text, err) := resolveCharset (OriginalCharset email) (TextBody email) err in
  let email := setTextBody email text in
  let (html, err) := resolveCharset (OriginalCharset email) (HTMLBody email) err in
  let email := setHTMLBody email html in
  (Some email, err).

Definition ParseEmail (fuel : nat) (r : Reader) : option Parsed :=
  match mail_ReadMessage r with
  | Err e => Some (None, Some e)
  | Ok (header, body) =>
      match createEmailFromHeader header with
      | (email, Some e) => Some (Some email, Some e)
      | (email, None) =>
          let email := setContentType email (TextProto.Get header "Content-Type") in
          match parseContentType (ContentType email) with
          | Err e => Some (Some email, Some e)
          | Ok (contentType, params) =>
              match parseBody fuel email contentType params header body with
              | None => None
              | Some (inl returned) => Some returned
              | Some (inr (email, err)) => Some (resolveCharsets email err)
              end
          end
      end
  end.

End Parser.

(** ** [session.go] and the backend

    The connection, the handler and the authenticator are values of
    packages outside the repository's sources: their types are
    parameters, and so is the call of a handler on the context of a
    session, which may return an error and, the context holding a pointer
    to the session, change the session. *)

(** [smtp.MailOptions], the field [Mail] reads. *)
Record MailOptions := mkMailOptions { Auth : option string }.

Section Session.
Context {L : GoLib}.
Variables Conn HandlerFunc AuthFunc RcptOptions : Type.

Record Session := mkSession {
  conn : Conn;
  session_From : option Address;
  session_To : option Address;
  handler : option HandlerFunc;
  body : option Reader;
  auther : option AuthFunc;
  username : option string;
  password : option string
}.

Variable call : HandlerFunc -> Session -> Session * option error.

Definition NewSession (c : Conn) (h : option HandlerFunc)
    (a : option AuthFunc) : Session :=
  mkSession c None None h None a None None.

Definition Mail (s : Session) (from : string) (opts : option MailOptions)
  : Session * option error :=
  let (parsed, err) :=
    match mail_ParseAddress from with
    | Ok address => (Some address, None)
    | Err e => (None, Some e)
    end in
  let s := mkSession (conn s) parsed (session_To s) (handler s) (body s)
             (auther s) (username s) (password s) in
  let s :=
    match opts with
    | Some (mkMailOptions (Some authIdentity)) =>
        mkSession (conn s) (session_From s) (session_To s) (handler s)
          (body s) (auther s) (Some authIdentity) (password s)
    | _ => s
    end in
  (s, err).

Definition Rcpt (s : Session) (to : string) (opts : option RcptOptions)
  : Session * option error :=
  let (parsed, err) :=
    match mail_ParseAddress to with
    | Ok address => (Some address, None)
    | Err e => (None, Some e)
    end in
  (mkSession (conn s) (session_From s) parsed (handler s) (body s)
     (auther s) (username s) (password s), err).

Definition Data (s : Session) (r : Reader) : Session * option error :=
  match handler s with
  | None => (s, Some "internal error: no handler")
  | Some h =>
      call h (mkSession (conn s) (session_From s) (session_To s) (handler s)
                (Some r) (auther s) (username s) (password s))
  end.

Definition Reset (s : Session) : Session := s.

Definition Logout (s : Session) : Session * option error := (s, None).

(** The backend. *)
Record Backend := mkBackend {
  backend_handler : option HandlerFunc;
  backend_auther : option AuthFunc
}.

Definition NewBackend (a : option AuthFunc) (h : option HandlerFunc) : Backend :=
  mkBackend h a.

Definition Backend_NewSession (bkd : Backend) (c : Conn)
  : Session * option error :=
  (NewSession c (backend_handler bkd) (backend_auther bkd), None).

End Session.

(** ** A library instance for concrete messages

    [fixture] answers as the Go packages do on the inputs tabulated here
    and refuses every other input; it serves to run the decoder on
    concrete messages. *)
Module Fixture.

Definition crlf : string := String CR (String LF EmptyString).

Definition notTabulated : error := "fixture: input not tabulated".

(** ISO 8859-1 to UTF-8: a byte above 127 becomes two bytes. *)
Fixpoint latin1 (s : string) : string :=
  match s with
  | EmptyString => EmptyString
  | String c t =>
      let n := N_of_ascii c in
      if (n <? 128)%N then String c (latin1 t)
      else String (ascii_of_N (N.lor 192 (N.shiftr n 6)))
             (String (ascii_of_N (N.lor 128 (N.land n 63))) (latin1 t))
  end.

(** A decoder that is the identity on ASCII text. *)
Definition asciiOnly (r : Reader) : Reader :=
  if Strings.isASCII (content r) then r
  else mkReader EmptyString (Some notTabulated).

Definition Encoding (name : string) : result (Reader -> Reader) :=
  if name =? "iso-8859-1"
  then Ok (fun r => mkReader (latin1 (content r)) (failure r))
  else if (name =? "utf-8") || (name =? "gbk") then Ok asciiOnly
  else Err "ianaindex: invalid encoding name".

(** Five letters in EBCDIC code page 424, which has no ASCII byte. *)
Definition ebcdic : string :=
  String "113" (String "065" (String "087" (String "081" (String "104"
    EmptyString)))).

Definition DetectBest (b : string) : result string :=
  if b =? ebcdic then Ok "IBM424_rtl"
  else if Strings.isASCII b then Ok "ISO-8859-1"
  else Err "Charset not detected.".

Definition ParseAddressList (s : string) : result (list Address) :=
  if s =? "bogus" then Err "mail: missing '@' or angle-addr"
  else if s =? "a@example.org" then Ok [mkAddress "" "a@example.org"]
  else Err notTabulated.

Definition ParseAddress (s : string) : result Address :=
  if s =? "bogus" then Err "mail: missing '@' or angle-addr"
  else if s =? "a@example.org" then Ok (mkAddress "" "a@example.org")
  else Err notTabulated.

(** Seconds since the zero time. *)
Definition Parse (layout value : string) : result N :=
  if (layout =? "Mon, 02 Jan 2006 15:04:05 -0700")
     && (value =? "Mon, 02 Jan 2006 15:04:05 -0700")
  then Ok 63271836245%N
  else if value =? "yesterday"
  then Err ("parsing time yesterday as " ++ layout)
  else Err notTabulated.

(** Media types without quoted parameters: [type; key=value; ...]. *)
Definition ParseMediaType (v : string) : result (string * Params) :=
  match Strings.Split v ";" with
  | t :: ps =>
      let mediatype :=
        Strings.mapBytes Strings.lowerByte (Strings.Trim t Strings.asciiSpace) in
      if mediatype =? "" then Err "mime: no media type"
      else
        Ok (mediatype,
            map (fun p =>
                   match Strings.Split p "=" with
                   | [k; x] =>
                       (Strings.mapBytes Strings.lowerByte
                          (Strings.Trim k Strings.asciiSpace), x)
                   | _ => (EmptyString, EmptyString)
                   end) ps)
  | [] => Err "mime: no media type"
  end.

Definition textPart (body : string) : Part :=
  mkPart [("Content-Type", ["text/plain"])] EmptyString (NewReader body).

Definition htmlPart (encoding body : string) : Part :=
  mkPart [("Content-Type", ["text/html"]);
          ("Content-Transfer-Encoding", [encoding])]
    EmptyString (NewReader body).

(** A plain part that declares a transfer encoding. *)
Definition encodedTextPart (encoding body : string) : Part :=
  mkPart [("Content-Type", ["text/plain"]);
          ("Content-Transfer-Encoding", [encoding])]
    EmptyString (NewReader body).

(** An image without a file name, in base64. *)
Definition imagePart : Part :=
  mkPart [("Content-Type", ["image/png"]);
          ("Content-Transfer-Encoding", ["base64"]);
          ("Content-Id", ["<logo>"])]
    EmptyString (NewReader "aGVsbG8=").

(** A file with a name ([Content-Disposition: attachment;
    filename=a.txt]) and no transfer encoding. *)
Definition filePart : Part :=
  mkPart [("Content-Type", ["application/pdf"]);
          ("Content-Disposition", ["attachment; filename=a.txt"])]
    "a.txt" (NewReader "%PDF").

(** A [multipart/alternative] body with boundary [b]: a plain part, then
    an HTML part declaring a transfer encoding. *)
Definition alternativeBody (text encoding html : string) : string :=
  "--b" ++ crlf ++ "Content-Type: text/plain" ++ crlf ++ crlf
  ++ text ++ crlf
  ++ "--b" ++ crlf ++ "Content-Type: text/html" ++ crlf
  ++ "Content-Transfer-Encoding: " ++ encoding ++ crlf ++ crlf
  ++ html ++ crlf
  ++ "--b--".

Definition alternativeHeader : MIMEHeader :=
  [("Content-Type", ["multipart/alternative; boundary=b"])].

Definition alternativeMessage (text encoding html : string) : string :=
  "Content-Type: multipart/alternative; boundary=b" ++ crlf ++ crlf
  ++ alternativeBody text encoding html.

(** The nested part of [mixedBody]. *)
Definition nestedPart : Part :=
  mkPart alternativeHeader EmptyString
    (NewReader (alternativeBody "hi" "7bit" "<p>hi</p>")).

(** A [multipart/mixed] body with boundary [m]: a plain part, then a
    [multipart/alternative] part. *)
Definition mixedBody : string :=
  "--m" ++ crlf ++ "Content-Type: text/plain" ++ crlf ++ crlf
  ++ "intro" ++ crlf
  ++ "--m" ++ crlf
  ++ "Content-Type: multipart/alternative; boundary=b" ++ crlf ++ crlf
  ++ alternativeBody "hi" "7bit" "<p>hi</p>" ++ crlf
  ++ "--m--".

(** The messages of the table. *)
Definition plainMessage : string :=
  "Subject: greeting" ++ crlf ++ crlf ++ "hello" ++ crlf.

Definition nonsenseMessage : string :=
  alternativeMessage "hi" "quoted-nonsense" "<p>hi</p>".

Definition ebcdicMessage : string :=
  alternativeMessage ebcdic "7bit" "<p>hi</p>".

Definition ReadMessage (r : Reader) : result (MIMEHeader * Reader) :=
  if content r =? plainMessage
  then Ok ([("Subject", ["greeting"])], mkReader ("hello" ++ crlf) (failure r))
  else if content r =? nonsenseMessage
  then Ok (alternativeHeader,
           mkReader (alternativeBody "hi" "quoted-nonsense" "<p>hi</p>") (failure r))
  else if content r =? ebcdicMessage
  then Ok (alternativeHeader,
           mkReader (alternativeBody ebcdic "7bit" "<p>hi</p>") (failure r))
  else Err notTabulated.

Definition NextParts (r : Reader) (boundary : string) : list Part * option error :=
  if (boundary =? "b")
     && (content r =? alternativeBody "hi" "quoted-nonsense" "<p>hi</p>")
  then ([textPart "hi"; htmlPart "quoted-nonsense" "<p>hi</p>"], failure r)
  else if (boundary =? "b")
          && (content r =? alternativeBody ebcdic "7bit" "<p>hi</p>")
  then ([textPart ebcdic; htmlPart "7bit" "<p>hi</p>"], failure r)
  else if (boundary =? "b")
          && (content r =? alternativeBody "hi" "7bit" "<p>hi</p>")
  then ([textPart "hi"; htmlPart "7bit" "<p>hi</p>"], failure r)
  else if (boundary =? "m") && (content r =? mixedBody)
  then ([textPart "intro"; nestedPart], failure r)
  else ([], Some notTabulated).

Definition fixture : GoLib := {|
  Time := N;
  zeroTime := 0%N;
  unicode_ToLower := fun s => s;
  unicode_TrimSpace := fun s => s;
  mail_ReadMessage := ReadMessage;
  mail_ParseAddress := ParseAddress;
  mail_ParseAddressList := ParseAddressList;
  time_Parse := Parse;
  mime_ParseMediaType := ParseMediaType;
  mime_WordDecoder_Decode := fun _ _ => Err "mime: invalid RFC 2047 encoded-word";
  multipart_NewReader := NextParts;
  quotedprintable_NewReader := fun _ => mkReader EmptyString (Some notTabulated);
  ianaindex_MIME_Encoding := Encoding;
  chardet_DetectBest := DetectBest
|}.

End Fixture.

(** A second instance, with more single-part messages in the table of
    [mail.ReadMessage] and one encoded word in that of the word decoder. *)
Module MoreMessages.

Definition crlf : string := Fixture.crlf.

(** A PDF in base64. *)
Definition pdfMessage : string :=
  "Content-Type: application/pdf" ++ crlf
  ++ "Content-Transfer-Encoding: base64" ++ crlf ++ crlf
  ++ "aGVsbG8=" ++ crlf.

(** A text under a transfer encoding the decoder does not know. *)
Definition uuencodeMessage : string :=
  "Content-Type: text/plain" ++ crlf
  ++ "Content-Transfer-Encoding: x-uuencode" ++ crlf ++ crlf
  ++ "hi" ++ crlf.

(** A text whose subject is an encoded word in GB2312. *)
Definition taggedMessage : string :=
  "Subject: =?GB2312?B?xOO6ww==?=" ++ crlf ++ crlf ++ "hi".

(** An HTML message whose body is cut before its first byte. *)
Definition htmlMessage : string :=
  "Content-Type: text/html" ++ crlf ++ crlf.

(** The two characters of the subject, in UTF-8. *)
Definition nihao : string :=
  String "228" (String "189" (String "160"
    (String "229" (String "165" (String "189" EmptyString))))).

Definition Decode (f : string -> Reader -> result Reader) (word : string)
  : result string :=
  if word =? "=?GB2312?B?xOO6ww==?=" then Ok nihao
  else Err "mime: invalid RFC 2047 encoded-word".

Definition ReadMessage (r : Reader) : result (MIMEHeader * Reader) :=
  if content r =? pdfMessage
  then Ok ([("Content-Type", ["application/pdf"]);
            ("Content-Transfer-Encoding", ["base64"])],
           mkReader ("aGVsbG8=" ++ crlf) (failure r))
  else if content r =? uuencodeMessage
  then Ok ([("Content-Type", ["text/plain"]);
            ("Content-Transfer-Encoding", ["x-uuencode"])],
           mkReader ("hi" ++ crlf) (failure r))
  else if content r =? taggedMessage
  then Ok ([("Subject", ["=?GB2312?B?xOO6ww==?="])], mkReader "hi" (failure r))
  else if content r =? htmlMessage
  then Ok ([("Content-Type", ["text/html"])], mkReader "" (failure r))
  else Fixture.ReadMessage r.

Definition library : GoLib := {|
  Time := N;
  zeroTime := 0%N;
  unicode_ToLower := fun s => s;
  unicode_TrimSpace := fun s => s;
  mail_ReadMessage := ReadMessage;
  mail_ParseAddress := Fixture.ParseAddress;
  mail_ParseAddressList := Fixture.ParseAddressList;
  time_Parse := Fixture.Parse;
  mime_ParseMediaType := Fixture.ParseMediaType;
  mime_WordDecoder_Decode := Decode;
  multipart_NewReader := Fixture.NextParts;
  quotedprintable_NewReader :=
    fun _ => mkReader EmptyString (Some Fixture.notTabulated);
  ianaindex_MIME_Encoding := Fixture.Encoding;
  chardet_DetectBest := Fixture.DetectBest
|}.

End MoreMessages.

(** * Properties *)

(** ** Running the embedding *)

Example Encode_hello :
  Base64.EncodeToString "hello" = "aGVsbG8=".
Proof. reflexivity. Qed.

Example Decode_hello :
  ReadAll (Base64.NewDecoder (NewReader "aGVsbG8=")) = ("hello", None).
Proof. reflexivity. Qed.

Example Decode_with_line_breaks :
  ReadAll (Base64.NewDecoder
             (NewReader ("aGVs" ++ String CR (String LF "bG8="))))
  = ("hello", None).
Proof. reflexivity. Qed.

Example Decode_truncated :
  ReadAll (Base64.NewDecoder (NewReader "aGVsbG8"))
  = ("", Some Base64.CorruptInputError).
Proof. reflexivity. Qed.

Example Date_first_layout :
  @Date Fixture.fixture
    (fst (@createEmailFromHeader Fixture.fixture
            [("Date", ["Mon, 02 Jan 2006 15:04:05 -0700"])]))
  = 63271836245%N.
Proof. reflexivity. Qed.

Example Split_two : Strings.Split "a b" " " = ["a"; "b"].
Proof. reflexivity. Qed.

Example Trim_mid : Strings.Trim "  a b " " " = "a b".
Proof. reflexivity. Qed.

Example Get_canonical :
  TextProto.Get [("Message-Id", ["<a@b>"])] "Message-ID" = "<a@b>".
Proof. reflexivity. Qed.

Example Subject_charset :
  SubjectCharset.FindStringSubmatch "Re: =?GB2312?B?xOO6ww==?=" = Some "GB2312".
Proof. reflexivity. Qed.

(** ** Base64 *)
Module Base64Facts.
Import Base64.
Local Open Scope N_scope.

Lemma lor_disjoint (k b n : N) :
  b < 2 ^ n -> N.lor (k * 2 ^ n) b = k * 2 ^ n + b.
Proof.
  intro Hb.
  assert (Hland : N.land (k * 2 ^ n) b = 0).
  { apply N.bits_inj. intro m. rewrite N.land_spec, N.bits_0.
    destruct (N.ltb_spec m n) as [Hlt | Hge].
    - rewrite N.mul_pow2_bits_low by assumption. reflexivity.
    - rewrite <- (N.mod_small b (2 ^ n)) by assumption.
      rewrite N.mod_pow2_bits_high by assumption.
      apply andb_false_r. }
  rewrite N.add_nocarry_lxor by assumption.
  symmetry. apply N.lxor_lor. assumption.
Qed.

Lemma below64 (P : N -> Prop) :
  Forall P (map N.of_nat (seq 0 64)) -> forall v, v < 64 -> P v.
Proof.
  intros Hall v Hv. rewrite Forall_forall in Hall. apply Hall.
  rewrite <- (N2Nat.id v). apply in_map. apply in_seq. lia.
Qed.

Lemma decodeMap_encodeChar (v : N) :
  v < 64 -> decodeMap (encodeChar v) = Some v.
Proof.
  revert v. apply below64. repeat constructor.
Qed.

Lemma encodeChar_kept (v : N) :
  v < 64 ->
  negb ((encodeChar v =? CR)%char || (encodeChar v =? LF)%char) = true.
Proof.
  revert v. apply below64. repeat constructor.
Qed.

Lemma sextet_lt (val k : N) : sextet val k < 64.
Proof.
  unfold sextet. change 63 with (N.ones 6). rewrite N.land_ones.
  apply N.mod_lt. discriminate.
Qed.

Lemma sextet_eq (val k : N) : sextet val k = (val / 2 ^ k) mod 64.
Proof.
  unfold sextet. change 63 with (N.ones 6).
  rewrite N.land_ones, N.shiftr_div_pow2. reflexivity.
Qed.

Lemma byte_eq (n : N) : byte n = ascii_of_N (n mod 256).
Proof.
  unfold byte. change 255 with (N.ones 8). rewrite N.land_ones. reflexivity.
Qed.

Lemma quantum_eq (v0 v1 v2 v3 : N) :
  v1 < 64 -> v2 < 64 -> v3 < 64 ->
  quantum v0 v1 v2 v3 = v0 * 2 ^ 18 + v1 * 2 ^ 12 + v2 * 2 ^ 6 + v3.
Proof.
  intros H1 H2 H3. unfold quantum. rewrite !N.shiftl_mul_pow2.
  rewrite (@lor_disjoint v0 _ 18) by lia.
  replace (v0 * 2 ^ 18 + v1 * 2 ^ 12)
    with ((v0 * 2 ^ 6 + v1) * 2 ^ 12) by lia.
  rewrite (@lor_disjoint _ _ 12) by lia.
  replace ((v0 * 2 ^ 6 + v1) * 2 ^ 12 + v2 * 2 ^ 6)
    with ((v0 * 2 ^ 12 + v1 * 2 ^ 6 + v2) * 2 ^ 6) by lia.
  rewrite (@lor_disjoint _ _ 6) by lia.
  lia.
Qed.

Lemma pack3 (b0 b1 b2 : N) :
  b1 < 256 -> b2 < 256 ->
  N.lor (N.lor (N.shiftl b0 16) (N.shiftl b1 8)) b2
  = b0 * 2 ^ 16 + b1 * 2 ^ 8 + b2.
Proof.
  intros H1 H2. rewrite !N.shiftl_mul_pow2.
  rewrite (@lor_disjoint b0 _ 16) by lia.
  replace (b0 * 2 ^ 16 + b1 * 2 ^ 8) with ((b0 * 2 ^ 8 + b1) * 2 ^ 8) by lia.
  rewrite (@lor_disjoint _ _ 8) by lia.
  lia.
Qed.

Lemma pack2 (b0 b1 : N) :
  b1 < 256 ->
  N.lor (N.shiftl b0 16) (N.shiftl b1 8) = b0 * 2 ^ 16 + b1 * 2 ^ 8.
Proof.
  intros H1. rewrite !N.shiftl_mul_pow2.
  rewrite (@lor_disjoint b0 _ 16) by lia. reflexivity.
Qed.

(** The four sextets of a 24-bit value give the value back. *)
Lemma quantum_sextets (val : N) :
  val < 2 ^ 24 ->
  quantum (sextet val 18) (sextet val 12) (sextet val 6) (sextet val 0) = val.
Proof.
  intro Hval.
  rewrite quantum_eq by apply sextet_lt.
  rewrite !sextet_eq.
  change (2 ^ 18) with (64 * 64 * 64). change (2 ^ 12) with (64 * 64).
  change (2 ^ 6) with 64. change (2 ^ 0) with 1.
  change (2 ^ 24) with 16777216 in Hval.
  rewrite N.div_1_r, <- !N.Div0.div_div.
  pose proof (N.div_mod' val 64) as E0.
  pose proof (N.div_mod' (val / 64) 64) as E1.
  pose proof (N.div_mod' (val / 64 / 64) 64) as E2.
  assert (val / 64 / 64 / 64 < 64) as E3.
  { rewrite !N.Div0.div_div. apply N.Div0.div_lt_upper_bound. exact Hval. }
  rewrite (N.mod_small _ _ E3).
  lia.
Qed.

Lemma unpack (b0 b1 b2 : N) :
  b0 < 256 -> b1 < 256 -> b2 < 256 ->
  let val := b0 * 2 ^ 16 + b1 * 2 ^ 8 + b2 in
  byte (N.shiftr val 16) = ascii_of_N b0
  /\ byte (N.shiftr val 8) = ascii_of_N b1
  /\ byte val = ascii_of_N b2.
Proof.
  intros H0 H1 H2 val. rewrite !byte_eq, !N.shiftr_div_pow2.
  assert (E16 : val / 2 ^ 16 = b0).
  { symmetry. apply N.div_unique with (r := b1 * 2 ^ 8 + b2); unfold val; lia. }
  assert (E8 : val / 2 ^ 8 = b0 * 2 ^ 8 + b1).
  { symmetry. apply N.div_unique with (r := b2); unfold val; lia. }
  rewrite E16, E8. repeat split; f_equal.
  - apply N.mod_small. assumption.
  - symmetry. apply N.mod_unique with (q := b0); lia.
  - symmetry. apply N.mod_unique with (q := b0 * 2 ^ 8 + b1); unfold val; lia.
Qed.

Lemma sextet_0_zero (k : N) : sextet (k * 2 ^ 8) 0 = 0.
Proof.
  rewrite sextet_eq. change (2 ^ 0) with 1. rewrite N.div_1_r.
  replace (k * 2 ^ 8) with (k * 4 * 64) by lia.
  apply N.Div0.mod_mul.
Qed.

Lemma sextet_6_zero (k : N) : sextet (k * 2 ^ 16) 6 = 0.
Proof.
  rewrite sextet_eq.
  replace (k * 2 ^ 16) with (k * 2 ^ 10 * 2 ^ 6) by lia.
  rewrite N.div_mul by discriminate.
  replace (k * 2 ^ 10) with (k * 16 * 64) by lia.
  apply N.Div0.mod_mul.
Qed.

(** One, two and three bytes through [Encode]'s sextets and [Decode]'s
    quantum. *)
Lemma bytes_1 (a : ascii) :
  let val := N.shiftl (N_of_ascii a) 16 in
  byte (N.shiftr (quantum (sextet val 18) (sextet val 12) 0 0) 16) = a.
Proof.
  intro val. pose proof (N_ascii_bounded a) as Ha.
  assert (Eval : val = N_of_ascii a * 2 ^ 16 + 0 * 2 ^ 8 + 0).
  { unfold val. rewrite N.shiftl_mul_pow2. lia. }
  assert (E6 : sextet val 6 = 0).
  { unfold val. rewrite N.shiftl_mul_pow2. apply sextet_6_zero. }
  assert (E0 : sextet val 0 = 0).
  { unfold val. rewrite N.shiftl_mul_pow2.
    replace (N_of_ascii a * 2 ^ 16) with (N_of_ascii a * 2 ^ 8 * 2 ^ 8) by lia.
    apply sextet_0_zero. }
  rewrite <- E6 at 1. rewrite <- E0 at 1.
  rewrite quantum_sextets by lia.
  rewrite Eval.
  destruct (@unpack (N_of_ascii a) 0 0) as (E & _); try lia.
  rewrite E. apply ascii_N_embedding.
Qed.

Lemma bytes_2 (a b : ascii) :
  let val := N.lor (N.shiftl (N_of_ascii a) 16) (N.shiftl (N_of_ascii b) 8) in
  let q := quantum (sextet val 18) (sextet val 12) (sextet val 6) 0 in
  byte (N.shiftr q 16) = a /\ byte (N.shiftr q 8) = b.
Proof.
  intros val q. pose proof (N_ascii_bounded a) as Ha.
  pose proof (N_ascii_bounded b) as Hb.
  assert (Eval : val = N_of_ascii a * 2 ^ 16 + N_of_ascii b * 2 ^ 8 + 0).
  { unfold val. rewrite pack2 by assumption. lia. }
  assert (E0 : sextet val 0 = 0).
  { replace val with ((N_of_ascii a * 2 ^ 8 + N_of_ascii b) * 2 ^ 8) by lia.
    apply sextet_0_zero. }
  assert (Eq : q = val).
  { unfold q. rewrite <- E0 at 1. apply quantum_sextets. lia. }
  rewrite Eq, Eval.
  destruct (@unpack (N_of_ascii a) (N_of_ascii b) 0) as (E1 & E2 & _); try lia.
  rewrite E1, E2, !ascii_N_embedding. split; reflexivity.
Qed.

Lemma bytes_3 (a b c : ascii) :
  let val := N.lor (N.lor (N.shiftl (N_of_ascii a) 16)
                          (N.shiftl (N_of_ascii b) 8)) (N_of_ascii c) in
  let q := quantum (sextet val 18) (sextet val 12) (sextet val 6) (sextet val 0) in
  byte (N.shiftr q 16) = a /\ byte (N.shiftr q 8) = b /\ byte q = c.
Proof.
  intros val q. pose proof (N_ascii_bounded a) as Ha.
  pose proof (N_ascii_bounded b) as Hb. pose proof (N_ascii_bounded c) as Hc.
  assert (Eval : val = N_of_ascii a * 2 ^ 16 + N_of_ascii b * 2 ^ 8 + N_of_ascii c).
  { unfold val. apply pack3; assumption. }
  assert (Eq : q = val).
  { unfold q. apply quantum_sextets. lia. }
  rewrite Eq, Eval.
  destruct (@unpack (N_of_ascii a) (N_of_ascii b) (N_of_ascii c))
    as (E1 & E2 & E3); try lia.
  rewrite E1, E2, E3, !ascii_N_embedding. repeat split; reflexivity.
Qed.

Lemma list_ind3 (A : Type) (P : list A -> Prop) :
  P [] -> (forall a, P [a]) -> (forall a b, P [a; b]) ->
  (forall a b c l, P l -> P (a :: b :: c :: l)) ->
  forall l, P l.
Proof.
  intros H0 H1 H2 H3 l.
  assert (H : P l /\ (forall a, P (a :: l)) /\ (forall a b, P (a :: b :: l))).
  { induction l as [| x l (IH0 & IH1 & IH2)].
    - repeat split; auto.
    - repeat split; auto. }
  apply H.
Qed.

Lemma Encode_3 (a b c : ascii) (l : list ascii) :
  Encode (a :: b :: c :: l)
  = let val := N.lor (N.lor (N.shiftl (N_of_ascii a) 16)
                            (N.shiftl (N_of_ascii b) 8)) (N_of_ascii c) in
    encodeChar (sextet val 18) :: encodeChar (sextet val 12)
    :: encodeChar (sextet val 6) :: encodeChar (sextet val 0) :: Encode l.
Proof. reflexivity. Qed.

Lemma Encode_2 (a b : ascii) :
  Encode [a; b]
  = let val := N.lor (N.shiftl (N_of_ascii a) 16) (N.shiftl (N_of_ascii b) 8) in
    [encodeChar (sextet val 18); encodeChar (sextet val 12);
     encodeChar (sextet val 6); StdPadding].
Proof. reflexivity. Qed.

Lemma Encode_1 (a : ascii) :
  Encode [a]
  = let val := N.shiftl (N_of_ascii a) 16 in
    [encodeChar (sextet val 18); encodeChar (sextet val 12);
     StdPadding; StdPadding].
Proof. reflexivity. Qed.

Lemma filter_keep (v : N) (l : list ascii) :
  v < 64 ->
  filterNewlines (encodeChar v :: l) = encodeChar v :: filterNewlines l.
Proof.
  intro Hv. unfold filterNewlines. cbn [filter].
  rewrite encodeChar_kept by assumption. reflexivity.
Qed.

Lemma filterNewlines_Encode (src : list ascii) :
  filterNewlines (Encode src) = Encode src.
Proof.
  induction src as [| a | a b | a b c l IH] using list_ind3.
  - reflexivity.
  - rewrite Encode_1. cbv zeta. rewrite !filter_keep by apply sextet_lt.
    reflexivity.
  - rewrite Encode_2. cbv zeta. rewrite !filter_keep by apply sextet_lt.
    reflexivity.
  - rewrite Encode_3. cbv zeta. rewrite !filter_keep by apply sextet_lt.
    rewrite IH. reflexivity.
Qed.

Lemma Decode_Encode (src : list ascii) : Decode (Encode src) = Ok src.
Proof.
  induction src as [| a | a b | a b c l IH] using list_ind3.
  - reflexivity.
  - rewrite Encode_1. cbv zeta.
    cbn [Decode]. rewrite !decodeMap_encodeChar by apply sextet_lt.
    change (decodeMap StdPadding) with (@None N).
    change ((StdPadding =? StdPadding)%char) with true. cbv iota. cbn [andb].
    rewrite bytes_1. reflexivity.
  - rewrite Encode_2. cbv zeta.
    cbn [Decode]. rewrite !decodeMap_encodeChar by apply sextet_lt.
    change (decodeMap StdPadding) with (@None N).
    change ((StdPadding =? StdPadding)%char) with true. cbv iota.
    destruct (bytes_2 a b) as (E1 & E2). rewrite E1, E2. reflexivity.
  - rewrite Encode_3. cbv zeta.
    cbn [Decode]. rewrite !decodeMap_encodeChar by apply sextet_lt.
    rewrite IH.
    destruct (bytes_3 a b c) as (E1 & E2 & E3). rewrite E1, E2, E3.
    reflexivity.
Qed.

End Base64Facts.

(** ** Content decoder and charset converter *)
Section ContentDecoder.
Context {L : GoLib}.

(** A token that is none of the seven the decoder knows, once trimmed and
    lower-cased, is refused, and the error shows the token as declared. *)
Lemma decodeContent_unknown (content : Reader) (encoding : string) :
  ~ In (ToLower (TrimSpace encoding))
       ["base64"; "7bit"; "8bit"; "binary"; "quoted-printable";
        "quotedprintable"; ""] ->
  decodeContent content encoding = Err ("unknown encoding: " ++ encoding).
Proof.
  intro Hnot. unfold decodeContent.
  set (enc := ToLower (TrimSpace encoding)) in *.
  repeat match goal with
  | |- context [String.eqb enc ?t] =>
      destruct (String.eqb_spec enc t) as [E | _];
      [exfalso; apply Hnot; rewrite E; simpl; tauto |]
  end.
  reflexivity.
Qed.

(** Without a declared encoding the reader itself is returned. *)
Lemma decodeContent_empty (content : Reader) :
  decodeContent content "" = Ok content.
Proof. reflexivity. Qed.

(** Under any declared token that is [base64] once trimmed and
    lower-cased, the decoder undoes [EncodeToString]. *)
Lemma decodeContent_base64 (S encoding : string) :
  ToLower (TrimSpace encoding) = "base64" ->
  decodeContent (NewReader (Base64.EncodeToString S)) encoding
  = Ok (NewReader S).
Proof.
  intro Henc. unfold decodeContent. rewrite Henc.
  change ("base64" =? "base64") with true. cbv iota.
  unfold Base64.NewDecoder, Base64.EncodeToString, NewReader. cbn [content].
  rewrite list_ascii_of_string_of_list_ascii.
  rewrite Base64Facts.filterNewlines_Encode, Base64Facts.Decode_Encode.
  cbn [ReadAll content failure].
  rewrite string_of_list_ascii_of_string. reflexivity.
Qed.

(** C8. For every byte sequence [S], the content decoder applied to the
    standard base64 encoding of [S] under the declared encoding [base64]
    returns a reader of exactly [S]. *)
Theorem C8_base64_round_trip (S : string) :
  decodeContent (NewReader (Base64.EncodeToString S)) "base64"
  = Ok (NewReader S).
Proof. apply decodeContent_base64. reflexivity. Qed.

(** C9. For every source text, the names [gb2312], [gb18030] and
    [gb-18030], in any letter case, are replaced by [gbk] before the
    registry is asked, so that converting under any two of them gives the
    same reader, the same text and the same error. *)
Theorem C9_gb_aliases (input : Reader) (s c1 c2 : string) :
  In (ToLower c1) ["gb2312"; "gb18030"; "gb-18030"] ->
  In (ToLower c2) ["gb2312"; "gb18030"; "gb-18030"] ->
  convertToUtf8 input c1 = convertToUtf8 input "gbk"
  /\ convertToUtf8 input c1 = convertToUtf8 input c2
  /\ convertToUtf8String s c1 = convertToUtf8String s c2.
Proof.
  assert (Hgbk : forall r c,
            In (ToLower c) ["gb2312"; "gb18030"; "gb-18030"] ->
            convertToUtf8 r c = convertToUtf8 r "gbk").
  { intros r c Hc. unfold convertToUtf8.
    change (ToLower "gbk") with "gbk".
    simpl in Hc. destruct Hc as [E | [E | [E | []]]]; rewrite <- E; reflexivity. }
  intros H1 H2. repeat split.
  - apply Hgbk. assumption.
  - rewrite (Hgbk input c1 H1), (Hgbk input c2 H2). reflexivity.
  - unfold convertToUtf8String.
    rewrite (Hgbk _ c1 H1), (Hgbk _ c2 H2). reflexivity.
Qed.

End ContentDecoder.

Lemma C9_gb_aliases_witness :
  (In (@ToLower Fixture.fixture "GB2312") ["gb2312"; "gb18030"; "gb-18030"]
   /\ In (@ToLower Fixture.fixture "Gb-18030") ["gb2312"; "gb18030"; "gb-18030"])
  /\ @convertToUtf8 Fixture.fixture (NewReader "abc") "GB2312"
     = @convertToUtf8 Fixture.fixture (NewReader "abc") "gbk"
  /\ @convertToUtf8 Fixture.fixture (NewReader "abc") "GB2312"
     = @convertToUtf8 Fixture.fixture (NewReader "abc") "Gb-18030"
  /\ @convertToUtf8String Fixture.fixture "abc" "GB2312"
     = @convertToUtf8String Fixture.fixture "abc" "Gb-18030".
Proof.
  split; [simpl; tauto |].
  apply (@C9_gb_aliases Fixture.fixture (NewReader "abc") "abc" "GB2312" "Gb-18030");
    simpl; tauto.
Defined.

(** ** Header field parser *)
Section HeaderParser.
Context {L : GoLib}.

(** A blank address field gives no address and leaves [hp.err] alone. *)
Lemma parseAddressList_blank (hp : headerParser) (s : string) :
  Strings.Trim s spaceNewline = "" ->
  parseAddressList hp s = ([], hp).
Proof.
  intro E. unfold parseAddressList. rewrite E.
  destruct (hp_err hp); reflexivity.
Qed.

Lemma parseAddress_blank (hp : headerParser) (s : string) :
  Strings.Trim s spaceNewline = "" ->
  parseAddress hp s = (None, hp).
Proof.
  intro E. unfold parseAddress. rewrite E.
  destruct (hp_err hp); reflexivity.
Qed.

(** The first layout that parses gives the time. *)
Lemma tryFormats_first (before after : list string) (format s : string)
    (t t' : Time) (hp : headerParser) :
  (forall f, In f before -> exists e, time_Parse f s = Err e) ->
  time_Parse format s = Ok t' ->
  tryFormats (before ++ format :: after) s t hp = (t', setErr hp None).
Proof.
  revert t hp. induction before as [| f before IH]; intros t hp Hfail Hok.
  - cbn. rewrite Hok. reflexivity.
  - cbn. destruct (Hfail f (or_introl eq_refl)) as (e & E). rewrite E.
    rewrite IH by (intros; auto using in_cons); reflexivity.
Qed.

(** When no layout parses, the callee's [hp.err] holds the error of the
    last layout, and the time is the zero time. *)
Lemma tryFormats_none (fs : list string) (final s : string) (e : error)
    (t : Time) (hp : headerParser) :
  (forall f, In f fs -> exists e', time_Parse f s = Err e') ->
  time_Parse final s = Err e ->
  tryFormats (fs ++ [final]) s t hp = (zeroTime, setErr hp (Some e)).
Proof.
  revert t hp. induction fs as [| f fs IH]; intros t hp Hfail Hlast.
  - cbn. rewrite Hlast. reflexivity.
  - cbn. destruct (Hfail f (or_introl eq_refl)) as (e' & E). rewrite E.
    rewrite IH by (intros; auto using in_cons); reflexivity.
Qed.

(** Whatever the header holds, [createEmailFromHeader] returns no error:
    [hp.err] is only ever assigned in the copies the methods work on. *)
Lemma createEmailFromHeader_no_error (header : MIMEHeader) :
  snd (createEmailFromHeader header) = None.
Proof. reflexivity. Qed.

(** C1 (divergence). When the [From] field is not blank and does not
    parse as a mailbox list, the parse error is assigned to the [hp.err] of
    the copy [parseAddressList] works on; [createEmailFromHeader] returns
    no error and an empty [From]. *)
Theorem C1_address_error_dropped (header : MIMEHeader) (e : error) :
  Strings.Trim (TextProto.Get header "From") spaceNewline <> "" ->
  mail_ParseAddressList (TextProto.Get header "From") = Err e ->
  parseAddressList (mkHeaderParser header None) (TextProto.Get header "From")
  = ([], mkHeaderParser header (Some e))
  /\ snd (createEmailFromHeader header) = None
  /\ From (fst (createEmailFromHeader header)) = [].
Proof.
  intros Hblank Hparse.
  assert (E : parseAddressList (mkHeaderParser header None)
                (TextProto.Get header "From")
              = ([], mkHeaderParser header (Some e))).
  { unfold parseAddressList. cbn [hp_err].
    destruct (String.eqb_spec
                (Strings.Trim (TextProto.Get header "From") spaceNewline) "")
      as [E | _]; [contradiction |].
    cbn [negb]. rewrite Hparse. reflexivity. }
  split; [| split].
  - exact E.
  - reflexivity.
  - change (From (fst (createEmailFromHeader header)))
      with (fst (parseAddressList (mkHeaderParser header None)
                   (TextProto.Get header "From"))).
    rewrite E. reflexivity.
Qed.

(** C7 (divergence). When the [Date] field is not empty and none of the
    four layouts parses it, the error of the last layout is assigned to
    the [hp.err] of the copy [parseTime] works on; [createEmailFromHeader]
    returns no error and the zero time. *)
Theorem C7_date_error_dropped (header : MIMEHeader) (e : error) :
  TextProto.Get header "Date" <> "" ->
  (forall layout, In layout formats ->
     exists e', time_Parse layout (TextProto.Get header "Date") = Err e') ->
  time_Parse "Mon, 2 Jan 2006 15:04:05 -0700 (MST)" (TextProto.Get header "Date")
  = Err e ->
  parseTime (mkHeaderParser header None) (TextProto.Get header "Date")
  = (zeroTime, mkHeaderParser header (Some e))
  /\ snd (createEmailFromHeader header) = None
  /\ Date (fst (createEmailFromHeader header)) = zeroTime.
Proof.
  intros Hempty Hall Hlast.
  assert (E : parseTime (mkHeaderParser header None) (TextProto.Get header "Date")
              = (zeroTime, mkHeaderParser header (Some e))).
  { unfold parseTime. cbn [hp_err].
    destruct (String.eqb_spec (TextProto.Get header "Date") "") as [E | _];
      [contradiction |].
    change formats with
      ([RFC1123Z; "Mon, 2 Jan 2006 15:04:05 -0700";
        (RFC1123Z ++ " (MST)")%string]
       ++ ["Mon, 2 Jan 2006 15:04:05 -0700 (MST)"])%list.
    apply tryFormats_none; [| exact Hlast].
    intros f Hf. apply Hall. unfold formats. simpl in Hf |- *. tauto. }
  split; [| split].
  - exact E.
  - reflexivity.
  - change (Date (fst (createEmailFromHeader header)))
      with (fst (parseTime (mkHeaderParser header None)
                   (TextProto.Get header "Date"))).
    rewrite E. reflexivity.
Qed.

End HeaderParser.

Lemma C1_address_error_dropped_witness :
  (Strings.Trim (TextProto.Get [("From", ["bogus"])] "From") spaceNewline <> ""
   /\ Fixture.ParseAddressList (TextProto.Get [("From", ["bogus"])] "From")
      = Err "mail: missing '@' or angle-addr")
  /\ @parseAddressList Fixture.fixture
       (mkHeaderParser [("From", ["bogus"])] None)
       (TextProto.Get [("From", ["bogus"])] "From")
     = ([], mkHeaderParser [("From", ["bogus"])]
              (Some "mail: missing '@' or angle-addr"))
  /\ snd (@createEmailFromHeader Fixture.fixture [("From", ["bogus"])]) = None
  /\ @From Fixture.fixture
       (fst (@createEmailFromHeader Fixture.fixture [("From", ["bogus"])])) = [].
Proof.
  split; [split; [discriminate | reflexivity] |].
  apply (@C1_address_error_dropped Fixture.fixture [("From", ["bogus"])]);
    [discriminate | reflexivity].
Defined.

Lemma C7_date_error_dropped_witness :
  @parseTime Fixture.fixture
    (mkHeaderParser [("Date", ["yesterday"])] None)
    (TextProto.Get [("Date", ["yesterday"])] "Date")
  = (0%N, mkHeaderParser [("Date", ["yesterday"])]
            (Some "parsing time yesterday as Mon, 2 Jan 2006 15:04:05 -0700 (MST)"))
  /\ snd (@createEmailFromHeader Fixture.fixture [("Date", ["yesterday"])]) = None
  /\ @Date Fixture.fixture
       (fst (@createEmailFromHeader Fixture.fixture [("Date", ["yesterday"])]))
     = 0%N.
Proof.
  apply (@C7_date_error_dropped Fixture.fixture [("Date", ["yesterday"])]).
  - discriminate.
  - intros layout Hlayout. simpl in Hlayout.
    destruct Hlayout as [E | [E | [E | [E | []]]]]; subst layout;
      eexists; reflexivity.
  - reflexivity.
Defined.

(** ** Multipart walkers *)
Section Walkers.
Context {L : GoLib}.

Variables alternative related : Reader -> string -> option Bodies.

(** In [multipart/alternative] and [multipart/mixed] a text part is
    decoded, trimmed of one newline and appended. *)
Lemma alternative_text_plain (part : Part) (rest : list Part)
    (ending : option error) (tb hb : string) (efs : list EmbeddedFile)
    (params : Params) :
  mime_ParseMediaType (TextProto.Get (part_Header part) "Content-Type")
  = Ok (contentTypeTextPlain, params) ->
  alternativeParts related (part :: rest) ending tb hb efs
  = match decodeContent (part_body part)
            (TextProto.Get (part_Header part) "Content-Transfer-Encoding") with
    | Err e => Some (tb, hb, efs, Some e)
    | Ok newPart =>
        match ReadAll newPart with
        | (_, Some e) => Some (tb, hb, efs, Some e)
        | (ppContent, None) =>
            alternativeParts related rest ending
              (tb ++ Strings.TrimSuffix ppContent newline) hb efs
        end
    end.
Proof. intro E. cbn [alternativeParts]. rewrite E. reflexivity. Qed.

Lemma alternative_text_html (part : Part) (rest : list Part)
    (ending : option error) (tb hb : string) (efs : list EmbeddedFile)
    (params : Params) :
  mime_ParseMediaType (TextProto.Get (part_Header part) "Content-Type")
  = Ok (contentTypeTextHtml, params) ->
  alternativeParts related (part :: rest) ending tb hb efs
  = match decodeContent (part_body part)
            (TextProto.Get (part_Header part) "Content-Transfer-Encoding") with
    | Err e => Some (tb, hb, efs, Some e)
    | Ok newPart =>
        match ReadAll newPart with
        | (_, Some e) => Some (tb, hb, efs, Some e)
        | (ppContent, None) =>
            alternativeParts related rest ending tb
              (hb ++ Strings.TrimSuffix ppContent newline) efs
        end
    end.
Proof. intro E. cbn [alternativeParts]. rewrite E. reflexivity. Qed.

Lemma mixed_text_plain (part : Part) (rest : list Part)
    (ending : option error) (tb hb : string) (ats : list Attachment)
    (efs : list EmbeddedFile) (params : Params) :
  mime_ParseMediaType (TextProto.Get (part_Header part) "Content-Type")
  = Ok (contentTypeTextPlain, params) ->
  mixedParts alternative related (part :: rest) ending tb hb ats efs
  = match decodeContent (part_body part)
            (TextProto.Get (part_Header part) "Content-Transfer-Encoding") with
    | Err e => Some (tb, hb, ats, efs, Some e)
    | Ok newPart =>
        match ReadAll newPart with
        | (_, Some e) => Some (tb, hb, ats, efs, Some e)
        | (ppContent, None) =>
            mixedParts alternative related rest ending
              (tb ++ Strings.TrimSuffix ppContent newline) hb ats efs
        end
    end.
Proof. intro E. cbn [mixedParts]. rewrite E. reflexivity. Qed.

Lemma mixed_text_html (part : Part) (rest : list Part)
    (ending : option error) (tb hb : string) (ats : list Attachment)
    (efs : list EmbeddedFile) (params : Params) :
  mime_ParseMediaType (TextProto.Get (part_Header part) "Content-Type")
  = Ok (contentTypeTextHtml, params) ->
  mixedParts alternative related (part :: rest) ending tb hb ats efs
  = match decodeContent (part_body part)
            (TextProto.Get (part_Header part) "Content-Transfer-Encoding") with
    | Err e => Some (tb, hb, ats, efs, Some e)
    | Ok newPart =>
        match ReadAll newPart with
        | (_, Some e) => Some (tb, hb, ats, efs, Some e)
        | (ppContent, None) =>
            mixedParts alternative related rest ending tb
              (hb ++ Strings.TrimSuffix ppContent newline) ats efs
        end
    end.
Proof. intro E. cbn [mixedParts]. rewrite E. reflexivity. Qed.

(** C2 (divergence). In [multipart/related] the bytes of a [text/plain]
    or [text/html] part are trimmed of one newline and appended as they
    are read: the declared transfer encoding is not looked at and the
    content decoder is not called. *)
Theorem C2_related_text_not_decoded (part : Part) (rest : list Part)
    (ending : option error) (tb hb : string) (efs : list EmbeddedFile)
    (params : Params) (ppContent : string) :
  ReadAll (part_body part) = (ppContent, None) ->
  (mime_ParseMediaType (TextProto.Get (part_Header part) "Content-Type")
   = Ok (contentTypeTextPlain, params) ->
   relatedParts alternative (part :: rest) ending tb hb efs
   = relatedParts alternative rest ending
       (tb ++ Strings.TrimSuffix ppContent newline) hb efs)
  /\ (mime_ParseMediaType (TextProto.Get (part_Header part) "Content-Type")
      = Ok (contentTypeTextHtml, params) ->
      relatedParts alternative (part :: rest) ending tb hb efs
      = relatedParts alternative rest ending tb
          (hb ++ Strings.TrimSuffix ppContent newline) efs).
Proof.
  intro Hread. split; intro E; cbn [relatedParts]; rewrite E; cbn -[ReadAll];
    rewrite Hread; reflexivity.
Qed.


(** The walk of a sequence of parts continues from the accumulators its
    first parts leave, when these are walked without error. *)
Lemma mixedParts_app (before rest : list Part) (ending : option error)
    (tb0 hb0 : string) (ats0 : list Attachment) (efs0 : list EmbeddedFile)
    (tb hb : string) (ats : list Attachment) (efs : list EmbeddedFile) :
  mixedParts alternative related before None tb0 hb0 ats0 efs0
  = Some (tb, hb, ats, efs, None) ->
  mixedParts alternative related (before ++ rest) ending tb0 hb0 ats0 efs0
  = mixedParts alternative related rest ending tb hb ats efs.
Proof.
  revert tb0 hb0 ats0 efs0.
  induction before as [| part before IH]; intros tb0 hb0 ats0 efs0 H.
  - cbn in H. injection H as -> -> -> ->. reflexivity.
  - cbn [mixedParts app] in *.
    repeat match type of H with
    | context [match ?x with _ => _ end] => destruct x; try discriminate H
    | context [if ?x then _ else _] => destruct x; try discriminate H
    end; auto.
Qed.

End Walkers.

Section NestedInMixed.
Context {L : GoLib}.

(** C10. In [parseMultipartMixed], when the loop comes to a part of type
    [multipart/alternative] or [multipart/related], the text, the HTML
    and the embedded files the nested walker returns are assigned to the
    accumulators: the walk goes on as if no text, HTML or embedded file
    had been met before that part, with the attachments met so far. *)
Theorem C10_nested_replaces (fuel : nat) (msg : Reader) (boundary : string)
    (before : list Part) (part : Part) (rest : list Part)
    (ending : option error) (contentType : string) (params : Params)
    (tb hb : string) (ats : list Attachment) (efs : list EmbeddedFile) :
  multipart_NewReader msg boundary = ((before ++ part :: rest)%list, ending) ->
  mime_ParseMediaType (TextProto.Get (part_Header part) "Content-Type")
  = Ok (contentType, params) ->
  contentType = contentTypeMultipartAlternative
  \/ contentType = contentTypeMultipartRelated ->
  mixedParts (parseMultipartAlternative fuel) (parseMultipartRelated fuel)
    before None EmptyString EmptyString [] []
  = Some (tb, hb, ats, efs, None) ->
  let nested :=
    if contentType =? contentTypeMultipartAlternative
    then parseMultipartAlternative fuel
    else parseMultipartRelated fuel in
  parseMultipartMixed (S fuel) msg boundary
  = mixedParts (parseMultipartAlternative fuel) (parseMultipartRelated fuel)
      (part :: rest) ending EmptyString EmptyString ats []
  /\ parseMultipartMixed (S fuel) msg boundary
     = match nested (part_body part) (param params "boundary") with
       | None => None
       | Some (tb', hb', efs', Some e) => Some (tb', hb', ats, efs', Some e)
       | Some (tb', hb', efs', None) =>
           mixedParts (parseMultipartAlternative fuel)
             (parseMultipartRelated fuel) rest ending tb' hb' ats efs'
       end.
Proof.
  intros Hparts E Hkind Hbefore nested.
  assert (Hstep : forall tb0 hb0 efs0,
            mixedParts (parseMultipartAlternative fuel)
              (parseMultipartRelated fuel) (part :: rest) ending tb0 hb0 ats efs0
            = match nested (part_body part) (param params "boundary") with
              | None => None
              | Some (tb', hb', efs', Some e) => Some (tb', hb', ats, efs', Some e)
              | Some (tb', hb', efs', None) =>
                  mixedParts (parseMultipartAlternative fuel)
                    (parseMultipartRelated fuel) rest ending tb' hb' ats efs'
              end).
  { intros tb0 hb0 efs0. cbn [mixedParts]. rewrite E. unfold nested.
    destruct Hkind as [-> | ->]; reflexivity. }
  assert (Hwalk : parseMultipartMixed (S fuel) msg boundary
                  = mixedParts (parseMultipartAlternative fuel)
                      (parseMultipartRelated fuel) (part :: rest) ending
                      tb hb ats efs).
  { unfold parseMultipartMixed. rewrite Hparts.
    apply mixedParts_app. exact Hbefore. }
  split.
  - rewrite Hwalk, !Hstep. reflexivity.
  - rewrite Hwalk. apply Hstep.
Qed.

End NestedInMixed.

Lemma C2_related_text_not_decoded_witness :
  ReadAll (part_body (Fixture.encodedTextPart "base64" "aGVsbG8="))
  = ("aGVsbG8=", None)
  /\ @relatedParts Fixture.fixture (@parseMultipartAlternative Fixture.fixture 0)
       [Fixture.encodedTextPart "base64" "aGVsbG8="] None "" "" []
     = Some ("aGVsbG8=", "", [], None)
  /\ @alternativeParts Fixture.fixture (@parseMultipartRelated Fixture.fixture 0)
       [Fixture.encodedTextPart "base64" "aGVsbG8="] None "" "" []
     = Some ("hello", "", [], None).
Proof.
  assert (Hread : ReadAll (part_body (Fixture.encodedTextPart "base64" "aGVsbG8="))
                  = ("aGVsbG8=", None)) by reflexivity.
  pose proof (@C2_related_text_not_decoded Fixture.fixture
                (@parseMultipartAlternative Fixture.fixture 0)
                (Fixture.encodedTextPart "base64" "aGVsbG8=") []
                None "" "" [] [] "aGVsbG8=" Hread) as [Hplain _].
  split; [reflexivity | split; [| reflexivity]].
  rewrite Hplain by reflexivity. reflexivity.
Defined.



Lemma C10_nested_replaces_witness :
  (@multipart_NewReader Fixture.fixture (NewReader Fixture.mixedBody) "m"
   = ([Fixture.textPart "intro"] ++ Fixture.nestedPart :: [], None)%list
   /\ @mixedParts Fixture.fixture (@parseMultipartAlternative Fixture.fixture 1)
        (@parseMultipartRelated Fixture.fixture 1)
        [Fixture.textPart "intro"] None "" "" [] []
      = Some ("intro", "", [], [], None))
  /\ @parseMultipartMixed Fixture.fixture 2 (NewReader Fixture.mixedBody) "m"
     = Some ("hi", "<p>hi</p>", [], [], None).
Proof.
  split; [split; reflexivity |].
  destruct (@C10_nested_replaces Fixture.fixture 1 (NewReader Fixture.mixedBody) "m"
              [Fixture.textPart "intro"] Fixture.nestedPart [] None
              contentTypeMultipartAlternative [("boundary", "b")]
              "intro" "" [] [] eq_refl eq_refl (or_introl eq_refl) eq_refl)
    as [Hwalk _].
  rewrite Hwalk. reflexivity.
Defined.

(** ** Message assembler *)
Section Assembler.
Context {L : GoLib}.

Lemma resolveCharset_empty (originalCharset : string) (err : option error) :
  resolveCharset originalCharset "" err = ("", err).
Proof. reflexivity. Qed.

Lemma resolveCharset_declared (originalCharset body : string)
    (err : option error) :
  body <> "" -> originalCharset <> "" ->
  resolveCharset originalCharset body err
  = convertToUtf8String body originalCharset.
Proof.
  intros Hb Ho. unfold resolveCharset.
  apply String.eqb_neq in Hb. apply String.eqb_neq in Ho.
  rewrite Hb, Ho. reflexivity.
Qed.

Lemma resolveCharset_detected (body charset : string) (err : option error) :
  body <> "" -> chardet_DetectBest body = Ok charset ->
  resolveCharset "" body err = convertToUtf8String body charset.
Proof.
  intros Hb Hd. unfold resolveCharset.
  apply String.eqb_neq in Hb. rewrite Hb, Hd. reflexivity.
Qed.

(** A detector that fails leaves the body and the error as they are. *)
Lemma resolveCharset_undetected (body : string) (e : error)
    (err : option error) :
  chardet_DetectBest body = Err e ->
  resolveCharset "" body err = (body, err).
Proof.
  intro Hd. unfold resolveCharset. rewrite Hd.
  destruct (body =? ""); reflexivity.
Qed.

(** The charset resolution writes the two bodies only. *)
Lemma resolveCharsets_files (email : Email) (err : option error) :
  exists email' err',
    resolveCharsets email err = (Some email', err')
    /\ Attachments email' = Attachments email
    /\ EmbeddedFiles email' = EmbeddedFiles email
    /\ Content email' = Content email.
Proof.
  unfold resolveCharsets.
  destruct (resolveCharset (OriginalCharset email) (TextBody email) err)
    as [text err1].
  destruct (resolveCharset (OriginalCharset (setTextBody email text))
              (HTMLBody (setTextBody email text)) err1) as [html err2].
  eexists. eexists. split; [reflexivity |]. repeat split.
Qed.

Lemma ParseEmail_body (fuel : nat) (r : Reader) (header : MIMEHeader)
    (body : Reader) (contentType : string) (params : Params) :
  mail_ReadMessage r = Ok (header, body) ->
  parseContentType (TextProto.Get header "Content-Type")
  = Ok (contentType, params) ->
  ParseEmail fuel r
  = match parseBody fuel
            (setContentType (fst (createEmailFromHeader header))
               (TextProto.Get header "Content-Type"))
            contentType params header body with
    | None => None
    | Some (inl returned) => Some returned
    | Some (inr (email, err)) => Some (resolveCharsets email err)
    end.
Proof.
  intros Hread Htype. unfold ParseEmail. rewrite Hread.
  change (createEmailFromHeader header)
    with (fst (createEmailFromHeader header), @None error).
  cbv iota beta zeta.
  change (ContentType (setContentType (fst (createEmailFromHeader header))
                         (TextProto.Get header "Content-Type")))
    with (TextProto.Get header "Content-Type").
  rewrite Htype. reflexivity.
Qed.

Lemma ParseEmail_alternative (fuel : nat) (r : Reader) (header : MIMEHeader)
    (body : Reader) (params : Params) (tb hb : string)
    (efs : list EmbeddedFile) (err : option error) :
  mail_ReadMessage r = Ok (header, body) ->
  parseContentType (TextProto.Get header "Content-Type")
  = Ok (contentTypeMultipartAlternative, params) ->
  parseMultipartAlternative fuel body (param params "boundary")
  = Some (tb, hb, efs, err) ->
  ParseEmail fuel r
  = Some (resolveCharsets
            (setBodies
               (setContentType (fst (createEmailFromHeader header))
                  (TextProto.Get header "Content-Type"))
               tb hb [] efs) err).
Proof.
  intros Hread Htype Hwalk.
  rewrite (ParseEmail_body fuel _ Hread Htype).
  unfold parseBody.
  change (contentTypeMultipartAlternative =? contentTypeMultipartMixed) with false.
  change (contentTypeMultipartAlternative =? contentTypeMultipartAlternative)
    with true.
  cbv iota. rewrite Hwalk. reflexivity.
Qed.

Lemma resolveCharsets_eq (email : Email) (err : option error) :
  resolveCharsets email err
  = let (text, err1) :=
      resolveCharset (OriginalCharset email) (TextBody email) err in
    let (html, err2) :=
      resolveCharset (OriginalCharset email) (HTMLBody email) err1 in
    (Some (setHTMLBody (setTextBody email text) html), err2).
Proof.
  unfold resolveCharsets.
  destruct (resolveCharset (OriginalCharset email) (TextBody email) err)
    as [text err1].
  reflexivity.
Qed.

Lemma OriginalCharset_header (header : MIMEHeader) :
  OriginalCharset (fst (createEmailFromHeader header))
  = match SubjectCharset.FindStringSubmatch (TextProto.Get header "Subject") with
    | Some charset => charset
    | None => ""
    end.
Proof. reflexivity. Qed.

(** C4 (amended). For a message of type [text/plain], declared or by
    default, with no transfer encoding, no charset in its subject and the
    body [hello] followed by a carriage return and a newline, [ParseEmail]
    returns no error and a [TextBody] of [hello] followed by the carriage
    return: the newline alone is trimmed.  The charset the detector may
    answer is one whose conversion leaves this text as it is. *)
Theorem C4_crlf_body_keeps_cr (fuel : nat) (r : Reader) (header : MIMEHeader)
    (body : Reader) (params : Params) :
  mail_ReadMessage r = Ok (header, body) ->
  parseContentType (TextProto.Get header "Content-Type")
  = Ok (contentTypeTextPlain, params) ->
  TextProto.Get header "Content-Transfer-Encoding" = "" ->
  content body = "hello" ++ String CR newline ->
  SubjectCharset.FindStringSubmatch (TextProto.Get header "Subject") = None ->
  (forall charset,
     chardet_DetectBest ("hello" ++ String CR "") = Ok charset ->
     convertToUtf8String ("hello" ++ String CR "") charset
     = ("hello" ++ String CR "", None)) ->
  exists email,
    ParseEmail fuel r = Some (Some email, None)
    /\ TextBody email = "hello" ++ String CR "".
Proof.
  intros Hread Htype Hcte Hbody Hsubject Hconv.
  rewrite (ParseEmail_body fuel _ Hread Htype).
  unfold parseBody.
  change (contentTypeTextPlain =? contentTypeMultipartMixed) with false.
  change (contentTypeTextPlain =? contentTypeMultipartAlternative) with false.
  change (contentTypeTextPlain =? contentTypeMultipartRelated) with false.
  change (contentTypeTextPlain =? contentTypeTextPlain) with true.
  cbv iota. rewrite Hcte, decodeContent_empty.
  unfold ReadAll. rewrite Hbody.
  change (Strings.TrimSuffix ("hello" ++ String CR newline) newline)
    with ("hello" ++ String CR "").
  rewrite resolveCharsets_eq.
  cbn [OriginalCharset TextBody HTMLBody setTextBody setContentType assign].
  rewrite OriginalCharset_header, Hsubject.
  change (HTMLBody (fst (createEmailFromHeader header))) with "".
  destruct (chardet_DetectBest ("hello" ++ String CR "")) as [charset | e] eqn:Hd.
  - rewrite (@resolveCharset_detected _ charset) by (discriminate || assumption).
    rewrite (Hconv charset eq_refl). cbv beta iota.
    rewrite resolveCharset_empty.
    eexists. split; reflexivity.
  - rewrite (@resolveCharset_undetected _ e) by assumption. cbv beta iota.
    rewrite resolveCharset_empty.
    eexists. split; reflexivity.
Qed.

(** C5 (divergence). When the walker of a [multipart/alternative]
    message returns an error (that of the content decoder on an unknown
    transfer encoding, say) together with the text gathered from the
    parts before, and the charset conversion of that text succeeds,
    [ParseEmail] returns the e-mail with that text and no error: the
    conversion's [nil] is assigned to [err] over the walker's error. *)
Theorem C5_walker_error_overwritten (fuel : nat) (r : Reader)
    (header : MIMEHeader) (body : Reader) (params : Params)
    (tb : string) (efs : list EmbeddedFile) (e : error)
    (charset tb' : string) :
  mail_ReadMessage r = Ok (header, body) ->
  parseContentType (TextProto.Get header "Content-Type")
  = Ok (contentTypeMultipartAlternative, params) ->
  parseMultipartAlternative fuel body (param params "boundary")
  = Some (tb, "", efs, Some e) ->
  SubjectCharset.FindStringSubmatch (TextProto.Get header "Subject") = None ->
  tb <> "" ->
  chardet_DetectBest tb = Ok charset ->
  convertToUtf8String tb charset = (tb', None) ->
  exists email,
    ParseEmail fuel r = Some (Some email, None)
    /\ TextBody email = tb' /\ HTMLBody email = "".
Proof.
  intros Hread Htype Hwalk Hsubject Htb Hdetect Hconv.
  rewrite (ParseEmail_alternative fuel _ Hread Htype Hwalk).
  rewrite resolveCharsets_eq.
  cbn [OriginalCharset TextBody HTMLBody setBodies setContentType assign].
  rewrite OriginalCharset_header, Hsubject.
  rewrite (@resolveCharset_detected _ charset) by assumption.
  rewrite Hconv. cbv beta iota. rewrite resolveCharset_empty.
  eexists. repeat split.
Qed.

(** C6 (divergence). When no charset is declared, the conversion of the
    text body under the detected charset fails, and the conversion of the
    HTML body succeeds, [ParseEmail] returns no error: the error of the
    first conversion is overwritten by the result of the second. *)
Theorem C6_conversion_error_overwritten (fuel : nat) (r : Reader)
    (header : MIMEHeader) (body : Reader) (params : Params)
    (tb hb : string) (efs : list EmbeddedFile)
    (c1 c2 tb' hb' : string) (e : error) :
  mail_ReadMessage r = Ok (header, body) ->
  parseContentType (TextProto.Get header "Content-Type")
  = Ok (contentTypeMultipartAlternative, params) ->
  parseMultipartAlternative fuel body (param params "boundary")
  = Some (tb, hb, efs, None) ->
  SubjectCharset.FindStringSubmatch (TextProto.Get header "Subject") = None ->
  tb <> "" -> hb <> "" ->
  chardet_DetectBest tb = Ok c1 ->
  convertToUtf8String tb c1 = (tb', Some e) ->
  chardet_DetectBest hb = Ok c2 ->
  convertToUtf8String hb c2 = (hb', None) ->
  exists email,
    ParseEmail fuel r = Some (Some email, None)
    /\ TextBody email = tb' /\ HTMLBody email = hb'.
Proof.
  intros Hread Htype Hwalk Hsubject Htb Hhb Hd1 Hc1 Hd2 Hc2.
  rewrite (ParseEmail_alternative fuel _ Hread Htype Hwalk).
  rewrite resolveCharsets_eq.
  cbn [OriginalCharset TextBody HTMLBody setBodies setContentType assign].
  rewrite OriginalCharset_header, Hsubject.
  rewrite (@resolveCharset_detected _ c1) by assumption.
  rewrite Hc1. cbv beta iota.
  rewrite (@resolveCharset_detected _ c2) by assumption.
  rewrite Hc2.
  eexists. repeat split.
Qed.

End Assembler.

Lemma C4_crlf_body_keeps_cr_witness :
  exists email,
    @ParseEmail Fixture.fixture 1 (NewReader Fixture.plainMessage)
    = Some (Some email, None)
    /\ @TextBody Fixture.fixture email = "hello" ++ String CR "".
Proof.
  assert (Hread : @mail_ReadMessage Fixture.fixture (NewReader Fixture.plainMessage)
                  = Ok ([("Subject", ["greeting"])],
                        NewReader ("hello" ++ String CR newline)))
    by reflexivity.
  assert (Htype : @parseContentType Fixture.fixture
                    (TextProto.Get [("Subject", ["greeting"])] "Content-Type")
                  = Ok (contentTypeTextPlain, [])) by reflexivity.
  apply (@C4_crlf_body_keeps_cr Fixture.fixture 1 _ _ _ _ Hread Htype);
    try reflexivity.
  intros charset Hdetect. injection Hdetect as <-. reflexivity.
Defined.

(** C4 (as stated, refuted). The message with the body [hello], a
    carriage return and a newline is not decoded to the text [hello]. *)
Lemma C4_text_is_not_hello :
  ~ (exists email,
       @ParseEmail Fixture.fixture 1 (NewReader Fixture.plainMessage)
       = Some (Some email, None)
       /\ @TextBody Fixture.fixture email = "hello").
Proof.
  intros (email & Hparse & Htext).
  assert (Hrun : option_map (fun parsed => option_map (@TextBody Fixture.fixture)
                                             (fst parsed))
                   (@ParseEmail Fixture.fixture 1 (NewReader Fixture.plainMessage))
                 = Some (Some ("hello" ++ String CR "")))
    by (vm_compute; reflexivity).
  rewrite Hparse in Hrun. cbn [option_map fst] in Hrun.
  rewrite Htext in Hrun. discriminate Hrun.
Qed.

Lemma C5_walker_error_overwritten_witness :
  (@parseMultipartAlternative Fixture.fixture 1
     (NewReader (Fixture.alternativeBody "hi" "quoted-nonsense" "<p>hi</p>")) "b"
   = Some ("hi", "", [], Some "unknown encoding: quoted-nonsense")
   /\ @decodeContent Fixture.fixture (NewReader "<p>hi</p>") "quoted-nonsense"
      = Err "unknown encoding: quoted-nonsense")
  /\ exists email,
       @ParseEmail Fixture.fixture 1 (NewReader Fixture.nonsenseMessage)
       = Some (Some email, None)
       /\ @TextBody Fixture.fixture email = "hi"
       /\ @HTMLBody Fixture.fixture email = "".
Proof.
  split; [split; reflexivity |].
  assert (Hread : @mail_ReadMessage Fixture.fixture
                    (NewReader Fixture.nonsenseMessage)
                  = Ok (Fixture.alternativeHeader,
                        NewReader (Fixture.alternativeBody "hi" "quoted-nonsense"
                                     "<p>hi</p>")))
    by reflexivity.
  assert (Htype : @parseContentType Fixture.fixture
                    (TextProto.Get Fixture.alternativeHeader "Content-Type")
                  = Ok (contentTypeMultipartAlternative, [("boundary", "b")]))
    by reflexivity.
  assert (Hwalk : @parseMultipartAlternative Fixture.fixture 1
                    (NewReader (Fixture.alternativeBody "hi" "quoted-nonsense"
                                  "<p>hi</p>"))
                    (param [("boundary", "b")] "boundary")
                  = Some ("hi", "", [], Some "unknown encoding: quoted-nonsense"))
    by reflexivity.
  assert (Hdetect : @chardet_DetectBest Fixture.fixture "hi" = Ok "ISO-8859-1")
    by reflexivity.
  assert (Hconv : @convertToUtf8String Fixture.fixture "hi" "ISO-8859-1"
                  = ("hi", None)) by reflexivity.
  apply (@C5_walker_error_overwritten Fixture.fixture 1 _ _ _ _ _ _ _ _ _
           Hread Htype Hwalk eq_refl ltac:(discriminate) Hdetect Hconv).
Defined.

Lemma C6_conversion_error_overwritten_witness :
  (@convertToUtf8String Fixture.fixture Fixture.ebcdic "IBM424_rtl"
   = ("", Some "ianaindex: invalid encoding name")
   /\ @chardet_DetectBest Fixture.fixture Fixture.ebcdic = Ok "IBM424_rtl")
  /\ exists email,
       @ParseEmail Fixture.fixture 1 (NewReader Fixture.ebcdicMessage)
       = Some (Some email, None)
       /\ @TextBody Fixture.fixture email = ""
       /\ @HTMLBody Fixture.fixture email = "<p>hi</p>".
Proof.
  split; [split; reflexivity |].
  assert (Hread : @mail_ReadMessage Fixture.fixture
                    (NewReader Fixture.ebcdicMessage)
                  = Ok (Fixture.alternativeHeader,
                        NewReader (Fixture.alternativeBody Fixture.ebcdic "7bit"
                                     "<p>hi</p>")))
    by reflexivity.
  assert (Htype : @parseContentType Fixture.fixture
                    (TextProto.Get Fixture.alternativeHeader "Content-Type")
                  = Ok (contentTypeMultipartAlternative, [("boundary", "b")]))
    by reflexivity.
  assert (Hwalk : @parseMultipartAlternative Fixture.fixture 1
                    (NewReader (Fixture.alternativeBody Fixture.ebcdic "7bit"
                                  "<p>hi</p>"))
                    (param [("boundary", "b")] "boundary")
                  = Some (Fixture.ebcdic, "<p>hi</p>", [], None))
    by reflexivity.
  assert (Hd1 : @chardet_DetectBest Fixture.fixture Fixture.ebcdic
                = Ok "IBM424_rtl") by reflexivity.
  assert (Hc1 : @convertToUtf8String Fixture.fixture Fixture.ebcdic "IBM424_rtl"
                = ("", Some "ianaindex: invalid encoding name")) by reflexivity.
  assert (Hd2 : @chardet_DetectBest Fixture.fixture "<p>hi</p>"
                = Ok "ISO-8859-1") by reflexivity.
  assert (Hc2 : @convertToUtf8String Fixture.fixture "<p>hi</p>" "ISO-8859-1"
                = ("<p>hi</p>", None)) by reflexivity.
  apply (@C6_conversion_error_overwritten Fixture.fixture 1 _ _ _ _ _ _ _ _ _ _ _ _
           Hread Htype Hwalk eq_refl ltac:(discriminate) ltac:(discriminate)
           Hd1 Hc1 Hd2 Hc2).
Defined.

(** ** Byte strings *)
Module StringsFacts.
Import Strings.

Lemma append_nil_r (s : string) : s ++ "" = s.
Proof. induction s as [| c s IH]; cbn; [| rewrite IH]; reflexivity. Qed.

Lemma append_assoc (a b c : string) : (a ++ b) ++ c = a ++ b ++ c.
Proof. induction a as [| x a IH]; cbn; [| rewrite IH]; reflexivity. Qed.

Lemma Split_not_nil (s : string) (sep : ascii) : Split s sep <> [].
Proof.
  destruct s as [| c t]; cbn; [discriminate |].
  destruct (c =? sep)%char; [discriminate |].
  destruct (Split t sep); discriminate.
Qed.

(** Putting the separator back between the pieces gives the string. *)
Lemma Split_unsplit (s : string) (sep : ascii) :
  hd "" (Split s sep)
  ++ fold_right (fun w r => String sep (w ++ r)) "" (tl (Split s sep))
  = s.
Proof.
  induction s as [| c t IH]; [reflexivity |].
  cbn [Split]. destruct (Ascii.eqb_spec c sep) as [-> | Hne].
  - cbn [hd tl fold_right]. destruct (Split t sep) as [| w ws] eqn:E.
    + exfalso. exact (Split_not_nil t sep E).
    + cbn [hd tl] in IH. cbn [fold_right append]. rewrite IH. reflexivity.
  - destruct (Split t sep) as [| w ws] eqn:E.
    + exfalso. exact (Split_not_nil t sep E).
    + cbn [hd tl] in *. cbn [append]. rewrite IH. reflexivity.
Qed.

(** No piece holds the separator. *)
Lemma Split_no_sep (s : string) (sep : ascii) (w : string) :
  In w (Split s sep) -> ~ In sep (list_ascii_of_string w).
Proof.
  revert w. induction s as [| c t IH]; intros w Hin.
  - cbn in Hin. destruct Hin as [<- | []]. intros [].
  - cbn [Split] in Hin. destruct (Ascii.eqb_spec c sep) as [-> | Hne].
    + destruct Hin as [<- | Hin]; [intros [] | auto].
    + destruct (Split t sep) as [| w' ws] eqn:E.
      * destruct Hin as [<- | []]. cbn. intros [H | []]. congruence.
      * destruct Hin as [<- | Hin].
        -- cbn. intros [H | H]; [congruence |].
           exact (IH w' (or_introl eq_refl) H).
        -- apply IH. right. exact Hin.
Qed.

Lemma Join_empty (ws : list string) :
  Join ws "" = fold_right append "" ws.
Proof.
  induction ws as [| w ws IH]; [reflexivity |].
  cbn [fold_right]. rewrite <- IH.
  destruct ws as [| w' ws]; cbn [Join]; [rewrite append_nil_r |]; reflexivity.
Qed.

Lemma TrimLeft_all (s cutset : string) :
  (forall c, In c (list_ascii_of_string s) -> inCutset c cutset = true) ->
  TrimLeft s cutset = "".
Proof.
  induction s as [| c t IH]; intro Hall; [reflexivity |].
  cbn [TrimLeft]. rewrite (Hall c (or_introl eq_refl)).
  apply IH. intros x Hx. apply Hall. right. exact Hx.
Qed.

Lemma TrimRight_all (s cutset : string) :
  (forall c, In c (list_ascii_of_string s) -> inCutset c cutset = true) ->
  TrimRight s cutset = "".
Proof.
  induction s as [| c t IH]; intro Hall; [reflexivity |].
  cbn [TrimRight]. rewrite IH by (intros x Hx; apply Hall; right; exact Hx).
  rewrite (Hall c (or_introl eq_refl)). reflexivity.
Qed.

(** A string of cutset bytes is trimmed to nothing. *)
Lemma Trim_all (s cutset : string) :
  (forall c, In c (list_ascii_of_string s) -> inCutset c cutset = true) ->
  Trim s cutset = "".
Proof.
  intro Hall. unfold Trim. rewrite TrimRight_all by assumption. reflexivity.
Qed.

(** What is left of a trimmed string does not begin with a cutset byte. *)
Lemma TrimLeft_head (s cutset : string) (c : ascii) (t : string) :
  TrimLeft s cutset = String c t -> inCutset c cutset = false.
Proof.
  induction s as [| x s IH]; cbn [TrimLeft]; [discriminate |].
  destruct (inCutset x cutset) eqn:E; [exact IH |].
  intro H. injection H as <- _. exact E.
Qed.

(** [TrimLeft] gives a suffix, [TrimRight] a prefix. *)
Lemma TrimLeft_suffix (s cutset : string) :
  exists before, s = before ++ TrimLeft s cutset.
Proof.
  induction s as [| x s (before & IH)]; [exists ""; reflexivity |].
  cbn [TrimLeft]. destruct (inCutset x cutset).
  - exists (String x before). cbn. rewrite <- IH. reflexivity.
  - exists "". reflexivity.
Qed.

(** ... nor end with one. *)
Lemma TrimRight_last (s cutset : string) (before : string) (c : ascii) :
  TrimRight s cutset = before ++ String c "" -> inCutset c cutset = false.
Proof.
  revert before. induction s as [| x s IH]; intros before; cbn [TrimRight].
  - destruct before; discriminate.
  - destruct (TrimRight s cutset) as [| y t] eqn:E.
    + destruct (inCutset x cutset) eqn:Ex.
      * destruct before; discriminate.
      * destruct before as [| b before]; cbn.
        -- intro H. injection H as <-. exact Ex.
        -- intro H. injection H as _ H. destruct before; discriminate.
    + destruct before as [| b before]; cbn.
      * intro H. discriminate H.
      * intro H. injection H as _ H. apply (IH before). exact H.
Qed.

Lemma Trim_head (s cutset : string) (c : ascii) (t : string) :
  Trim s cutset = String c t -> inCutset c cutset = false.
Proof. apply TrimLeft_head. Qed.

Lemma Trim_last (s cutset : string) (before : string) (c : ascii) :
  Trim s cutset = before ++ String c "" -> inCutset c cutset = false.
Proof.
  unfold Trim. intro H.
  destruct (TrimLeft_suffix (TrimRight s cutset) cutset) as (skipped & E).
  rewrite H in E.
  apply (@TrimRight_last s cutset (skipped ++ before) c).
  rewrite E, append_assoc. reflexivity.
Qed.

Lemma lowerByte_idempotent (c : ascii) : lowerByte (lowerByte c) = lowerByte c.
Proof. destruct c as [[] [] [] [] [] [] [] []]; reflexivity. Qed.

Lemma lowerByte_ascii (c : ascii) :
  (N_of_ascii c <? 128)%N = true -> (N_of_ascii (lowerByte c) <? 128)%N = true.
Proof. destruct c as [[] [] [] [] [] [] [] []]; intro H; exact H || reflexivity. Qed.

Lemma isASCII_lower (s : string) :
  isASCII s = true -> isASCII (mapBytes lowerByte s) = true.
Proof.
  induction s as [| c s IH]; [reflexivity |].
  cbn [isASCII mapBytes]. intro H. apply andb_true_iff in H as (Hc & Hs).
  rewrite (lowerByte_ascii c Hc), (IH Hs). reflexivity.
Qed.

Lemma mapBytes_lower_idempotent (s : string) :
  mapBytes lowerByte (mapBytes lowerByte s) = mapBytes lowerByte s.
Proof.
  induction s as [| c s IH]; [reflexivity |].
  cbn [mapBytes]. rewrite lowerByte_idempotent, IH. reflexivity.
Qed.

Lemma asciiSpace_ascii (c : ascii) :
  inCutset c asciiSpace = true -> (N_of_ascii c <? 128)%N = true.
Proof.
  cbn [inCutset asciiSpace]. intro H.
  repeat (apply orb_true_iff in H as [H | H];
          [apply Ascii.eqb_eq in H; subst c; reflexivity |]).
  discriminate H.
Qed.

Lemma isASCII_spaces (s : string) :
  (forall c, In c (list_ascii_of_string s) -> inCutset c asciiSpace = true) ->
  isASCII s = true.
Proof.
  induction s as [| c s IH]; intro Hall; [reflexivity |].
  cbn [isASCII]. rewrite (asciiSpace_ascii c (Hall c (or_introl eq_refl))).
  apply IH. intros x Hx. apply Hall. right. exact Hx.
Qed.

End StringsFacts.

(** ** More on base64 *)
Module Base64More.
Import Base64.




End Base64More.

(** ** More on the content decoder and the charset converter *)
Section DecoderMore.
Context {L : GoLib}.

(** Under [7bit], [8bit] and [binary], in any case and with spaces around,
    the content is read to its end: a reader of the same bytes comes
    back, or the error the reading met. *)
Theorem decodeContent_identity (r : Reader) (encoding : string) :
  In (ToLower (TrimSpace encoding)) ["7bit"; "8bit"; "binary"] ->
  decodeContent r encoding
  = match failure r with
    | Some e => Err e
    | None => Ok (NewReader (content r))
    end.
Proof.
  intro Henc. unfold decodeContent, ReadAll.
  destruct Henc as [<- | [<- | [<- | []]]]; cbn -[Base64.NewDecoder];
    destruct (failure r); reflexivity.
Qed.

(** A declared encoding of white space only counts as none: the reader
    comes back as it is, unread, also when reading it would fail. *)
Theorem decodeContent_blank (r : Reader) (encoding : string) :
  (forall c, In c (list_ascii_of_string encoding) ->
             Strings.inCutset c Strings.asciiSpace = true) ->
  decodeContent r encoding = Ok r.
Proof.
  intro Hblank. unfold decodeContent, TrimSpace.
  rewrite (StringsFacts.isASCII_spaces encoding Hblank).
  rewrite (StringsFacts.Trim_all encoding Strings.asciiSpace Hblank).
  reflexivity.
Qed.

(** Base64 text broken into lines decodes as the unbroken text does. *)
Theorem decodeContent_base64_wrapped (S wrapped encoding : string) :
  ToLower (TrimSpace encoding) = "base64" ->
  Base64.filterNewlines (list_ascii_of_string wrapped)
  = Base64.Encode (list_ascii_of_string S) ->
  decodeContent (NewReader wrapped) encoding = Ok (NewReader S).
Proof.
  intros Henc Hwrapped. unfold decodeContent. rewrite Henc.
  change ("base64" =? "base64") with true. cbv iota.
  unfold Base64.NewDecoder, NewReader. cbn [content].
  rewrite Hwrapped, Base64Facts.Decode_Encode.
  cbn [ReadAll content failure].
  rewrite string_of_list_ascii_of_string. reflexivity.
Qed.



(** A declared encoding that is none of the seven the decoder knows,
    once trimmed and lower-cased, is an error whose text ends with the
    encoding as it was declared, spaces and capitals included. *)
Theorem decodeContent_unknown_token (r : Reader) (encoding : string) :
  ~ In (ToLower (TrimSpace encoding))
       ["base64"; "7bit"; "8bit"; "binary"; "quoted-printable";
        "quotedprintable"; ""] ->
  decodeContent r encoding = Err ("unknown encoding: " ++ encoding).
Proof. apply decodeContent_unknown. Qed.

(** The charset name counts without its ASCII letter case. *)
Theorem convertToUtf8_lower (input : Reader) (charset : string) :
  Strings.isASCII charset = true ->
  convertToUtf8 input charset = convertToUtf8 input (ToLower charset).
Proof.
  intro Hascii. unfold convertToUtf8.
  assert (E : ToLower (ToLower charset) = ToLower charset).
  { unfold ToLower. rewrite Hascii.
    rewrite (StringsFacts.isASCII_lower charset Hascii).
    apply StringsFacts.mapBytes_lower_idempotent. }
  rewrite E. reflexivity.
Qed.

End DecoderMore.

Lemma decodeContent_unknown_token_witness :
  @decodeContent Fixture.fixture (NewReader "abc") " UUENCODE "
  = Err "unknown encoding:  UUENCODE ".
Proof.
  apply (@decodeContent_unknown_token Fixture.fixture).
  intro H. vm_compute in H.
  repeat (destruct H as [H | H]; [discriminate H |]). exact H.
Defined.

Lemma decodeContent_identity_witness :
  In (@ToLower Fixture.fixture (@TrimSpace Fixture.fixture " 8BIT "))
     ["7bit"; "8bit"; "binary"]
  /\ @decodeContent Fixture.fixture (mkReader "abc" (Some "unexpected EOF")) " 8BIT "
     = Err "unexpected EOF"
  /\ @decodeContent Fixture.fixture (NewReader "abc") " 8BIT "
     = Ok (NewReader "abc").
Proof.
  assert (H : In (@ToLower Fixture.fixture (@TrimSpace Fixture.fixture " 8BIT "))
                 ["7bit"; "8bit"; "binary"]) by (simpl; tauto).
  split; [exact H | split].
  - exact (@decodeContent_identity Fixture.fixture
             (mkReader "abc" (Some "unexpected EOF")) " 8BIT " H).
  - exact (@decodeContent_identity Fixture.fixture (NewReader "abc") " 8BIT " H).
Defined.

Lemma decodeContent_blank_witness :
  @decodeContent Fixture.fixture (mkReader "abc" (Some "unexpected EOF")) "  "
  = Ok (mkReader "abc" (Some "unexpected EOF")).
Proof.
  apply (@decodeContent_blank Fixture.fixture).
  intros c Hc. simpl in Hc. destruct Hc as [<- | [<- | []]]; reflexivity.
Defined.

Lemma decodeContent_base64_wrapped_witness :
  @decodeContent Fixture.fixture
    (NewReader ("aGVs" ++ String CR (String LF "bG8=") ++ String LF ""))
    "Base64"
  = Ok (NewReader "hello").
Proof.
  apply (@decodeContent_base64_wrapped Fixture.fixture "hello"); reflexivity.
Defined.



Lemma convertToUtf8_lower_witness :
  @convertToUtf8 Fixture.fixture (NewReader "abc") "ISO-8859-1"
  = @convertToUtf8 Fixture.fixture (NewReader "abc") "iso-8859-1".
Proof.
  apply (@convertToUtf8_lower Fixture.fixture (NewReader "abc") "ISO-8859-1").
  reflexivity.
Defined.

(** ** Sentences of encoded words and the decoded header *)
Module SplitFacts.
Import Strings.

Lemma Split_single (s : string) (sep : ascii) :
  ~ In sep (list_ascii_of_string s) -> Split s sep = [s].
Proof.
  induction s as [| c t IH]; intro Hno; [reflexivity |].
  cbn [Split]. destruct (Ascii.eqb_spec c sep) as [-> | Hne].
  - exfalso. apply Hno. left. reflexivity.
  - rewrite IH by (intro H; apply Hno; right; exact H). reflexivity.
Qed.

Lemma Split_app (a b : string) (sep : ascii) :
  ~ In sep (list_ascii_of_string a) ->
  Split (a ++ String sep b) sep = a :: Split b sep.
Proof.
  induction a as [| c t IH]; intro Hno.
  - cbn. rewrite Ascii.eqb_refl. reflexivity.
  - cbn [append Split]. destruct (Ascii.eqb_spec c sep) as [-> | Hne].
    + exfalso. apply Hno. left. reflexivity.
    + rewrite IH by (intro H; apply Hno; right; exact H). reflexivity.
Qed.

End SplitFacts.

Section Sentences.
Context {L : GoLib}.

(** The sentence, word by word: a word that decodes is replaced by its
    text, the first word that does not is kept, and a later word that
    does not is kept behind a space. *)
Lemma decodeMimeSentence_words (s : string) :
  decodeMimeSentence s
  = match Strings.Split s " " with
    | [] => ""
    | w :: ws =>
        match mime_WordDecoder_Decode
                (fun charset input => convertToUtf8 input charset) w with
        | Ok d => d
        | Err _ => w
        end
        ++ fold_right append ""
             (map (fun w =>
                     match mime_WordDecoder_Decode
                             (fun charset input => convertToUtf8 input charset) w with
                     | Ok d => d
                     | Err _ => " " ++ w
                     end) ws)
    end.
Proof.
  unfold decodeMimeSentence. rewrite StringsFacts.Join_empty.
  set (decode := mime_WordDecoder_Decode
                   (fun charset input => convertToUtf8 input charset)).
  set (step := fun (decoded : list string) (word : string) =>
                 (decoded ++ [match decode word with
                              | Ok w => w
                              | Err _ => match decoded with
                                         | [] => word
                                         | _ :: _ => (" " ++ word)%string
                                         end
                              end])%list).
  assert (Hlater : forall ws acc, acc <> [] ->
            fold_left step ws acc
            = (acc ++ map (fun w => match decode w with
                                    | Ok d => d
                                    | Err _ => (" " ++ w)%string
                                    end) ws)%list).
  { induction ws as [| w ws IH]; intros acc Hacc.
    - cbn. rewrite app_nil_r. reflexivity.
    - cbn [fold_left map]. rewrite IH.
      + unfold step at 1. destruct acc; [contradiction |].
        rewrite <- app_assoc. reflexivity.
      + unfold step. destruct acc; [contradiction | discriminate]. }
  destruct (Strings.Split s " ") as [| w ws]; [reflexivity |].
  cbn [fold_left]. rewrite Hlater by (unfold step; discriminate).
  unfold step. cbn [app fold_right]. reflexivity.
Qed.

(** A sentence none of whose words decodes comes back as it is. *)
Theorem decodeMimeSentence_plain (s : string) :
  (forall w, In w (Strings.Split s " ") ->
     exists e, mime_WordDecoder_Decode
                 (fun charset input => convertToUtf8 input charset) w = Err e) ->
  decodeMimeSentence s = s.
Proof.
  intro Hplain. rewrite decodeMimeSentence_words.
  pose proof (StringsFacts.Split_unsplit s " ") as Hs.
  revert Hplain Hs. generalize (Strings.Split s " ") as l.
  intros [| w ws] Hplain Hs; [exact Hs |].
  rewrite <- Hs.
  destruct (Hplain w (or_introl eq_refl)) as (e & ->).
  cbn [hd tl]. f_equal.
  assert (Hws : forall x, In x ws ->
            exists e', mime_WordDecoder_Decode
                         (fun charset input => convertToUtf8 input charset) x
                       = Err e')
    by (intros x Hx; apply Hplain; right; exact Hx).
  clear Hplain Hs. induction ws as [| x ws IH]; [reflexivity |].
  cbn [map fold_right]. destruct (Hws x (or_introl eq_refl)) as (e' & ->).
  rewrite IH by (intros y Hy; apply Hws; right; exact Hy).
  reflexivity.
Qed.

(** The space between a word that does not decode and an encoded word
    after it is lost, and so is the space between two encoded words; the
    space before a word that does not decode is kept. *)
Theorem decodeMimeSentence_two_words (a b : string) :
  ~ In " "%char (list_ascii_of_string a) ->
  ~ In " "%char (list_ascii_of_string b) ->
  decodeMimeSentence (a ++ " " ++ b)
  = match mime_WordDecoder_Decode
            (fun charset input => convertToUtf8 input charset) a,
          mime_WordDecoder_Decode
            (fun charset input => convertToUtf8 input charset) b with
    | Err _, Ok d => a ++ d
    | Ok c, Ok d => c ++ d
    | Err _, Err _ => a ++ " " ++ b
    | Ok c, Err _ => c ++ " " ++ b
    end.
Proof.
  intros Ha Hb. rewrite decodeMimeSentence_words.
  change (a ++ " " ++ b) with (a ++ String " " b).
  rewrite (@SplitFacts.Split_app a b " " Ha), (@SplitFacts.Split_single b " " Hb).
  cbn [map fold_right].
  destruct (mime_WordDecoder_Decode _ a), (mime_WordDecoder_Decode _ b);
    rewrite ?StringsFacts.append_nil_r; reflexivity.
Qed.

Lemma lookup_decoded (header : MIMEHeader) (key : string) :
  TextProto.lookup
    (map (fun field => (fst field, map decodeMimeSentence (snd field))) header)
    key
  = option_map (map decodeMimeSentence) (TextProto.lookup header key).
Proof.
  induction header as [| [k vs] header IH]; [reflexivity |].
  cbn [map TextProto.lookup fst snd]. destruct (k =? key); [reflexivity | exact IH].
Qed.

(** [decodeHeaderMime] never fails, and a field of the decoded header
    holds the decoded sentences of the raw field, value by value. *)
Theorem decodeHeaderMime_fields (header : MIMEHeader) :
  exists decoded,
    decodeHeaderMime header = Ok decoded
    /\ forall key,
         TextProto.lookup decoded key
         = option_map (map decodeMimeSentence) (TextProto.lookup header key).
Proof.
  eexists. split; [reflexivity |]. intro key. apply lookup_decoded.
Qed.

Lemma Header_Get (header : MIMEHeader) (key v : string) (vs : list string) :
  TextProto.lookup header (TextProto.CanonicalMIMEHeaderKey key) = Some (v :: vs) ->
  TextProto.Get (Header (fst (createEmailFromHeader header))) key
  = decodeMimeSentence (TextProto.Get header key).
Proof.
  intro Hfield.
  change (Header (fst (createEmailFromHeader header)))
    with (map (fun field => (fst field, map decodeMimeSentence (snd field)))
              header).
  unfold TextProto.Get. rewrite lookup_decoded, Hfield. reflexivity.
Qed.

(** For a field the raw header has, with a value, the [Header] of the
    e-mail answers the decoded sentence of the raw value, under any
    spelling of the field name that has the same canonical form. *)
Theorem Header_Get_decoded (header : MIMEHeader) (key v : string)
    (vs : list string) :
  TextProto.lookup header (TextProto.CanonicalMIMEHeaderKey key) = Some (v :: vs) ->
  TextProto.Get (Header (fst (createEmailFromHeader header))) key
  = decodeMimeSentence (TextProto.Get header key).
Proof. apply Header_Get. Qed.

(** When the header has a subject, the [Subject] of the e-mail is what its
    [Header] answers for [Subject]. *)
Theorem Subject_in_Header (header : MIMEHeader) (v : string)
    (vs : list string) :
  TextProto.lookup header "Subject" = Some (v :: vs) ->
  Subject (fst (createEmailFromHeader header))
  = TextProto.Get (Header (fst (createEmailFromHeader header))) "Subject".
Proof.
  intro Hfield. rewrite (@Header_Get header "Subject" v vs Hfield).
  reflexivity.
Qed.

End Sentences.

Lemma decodeMimeSentence_plain_witness :
  @decodeMimeSentence Fixture.fixture "Re:  hello world" = "Re:  hello world".
Proof.
  apply (@decodeMimeSentence_plain Fixture.fixture).
  intros w _. eexists. reflexivity.
Defined.

Lemma decodeMimeSentence_two_words_witness :
  @decodeMimeSentence Fixture.fixture ("Re:" ++ " " ++ "hello") = "Re: hello".
Proof.
  rewrite (@decodeMimeSentence_two_words Fixture.fixture "Re:" "hello").
  - reflexivity.
  - simpl. intuition discriminate.
  - simpl. intuition discriminate.
Defined.

Lemma Header_Get_decoded_witness :
  TextProto.Get
    (@Header Fixture.fixture
       (fst (@createEmailFromHeader Fixture.fixture
               [("Message-Id", ["<a@b>"; "<c@d>"])])))
    "Message-ID"
  = @decodeMimeSentence Fixture.fixture
      (TextProto.Get [("Message-Id", ["<a@b>"; "<c@d>"])] "Message-ID").
Proof.
  apply (@Header_Get_decoded Fixture.fixture
           [("Message-Id", ["<a@b>"; "<c@d>"])] "Message-ID" "<a@b>" ["<c@d>"]).
  reflexivity.
Defined.

Lemma Subject_in_Header_witness :
  @Subject Fixture.fixture
    (fst (@createEmailFromHeader Fixture.fixture [("Subject", ["greeting"])]))
  = TextProto.Get
      (@Header Fixture.fixture
         (fst (@createEmailFromHeader Fixture.fixture [("Subject", ["greeting"])])))
      "Subject".
Proof.
  apply (@Subject_in_Header Fixture.fixture [("Subject", ["greeting"])]
           "greeting" []).
  reflexivity.
Defined.

(** ** The charset tag of the subject *)
Module SubjectCharsetFacts.
Import SubjectCharset.

Lemma span_run (s run rest : string) :
  span s = (run, rest) ->
  forall c, In c (list_ascii_of_string run) -> inClass c = true.
Proof.
  revert run rest. induction s as [| x s IH]; intros run rest; cbn [span].
  - intro H. injection H as <- <-. intros c [].
  - destruct (inClass x) eqn:Ex.
    + destruct (span s) as [run' rest'] eqn:E. intro H. injection H as <- <-.
      intros c [<- | Hc]; [exact Ex | exact (IH run' rest' eq_refl c Hc)].
    + intro H. injection H as <- <-. intros c [].
Qed.

Lemma span_class (run rest : string) :
  (forall c, In c (list_ascii_of_string run) -> inClass c = true) ->
  span (run ++ String "?" rest) = (run, String "?" rest).
Proof.
  induction run as [| x run IH]; intro Hrun; [reflexivity |].
  cbn [append span]. rewrite (Hrun x (or_introl eq_refl)).
  rewrite IH by (intros c Hc; apply Hrun; right; exact Hc). reflexivity.
Qed.

Lemma matchHere_sound (s charset : string) :
  matchHere s = Some charset ->
  charset <> ""
  /\ forall c, In c (list_ascii_of_string charset) -> inClass c = true.
Proof.
  unfold matchHere.
  destruct s as [| c0 [| c1 t]]; try discriminate;
    try (destruct c0 as [[] [] [] [] [] [] [] []]; discriminate).
  destruct c0 as [[] [] [] [] [] [] [] []]; try discriminate.
  destruct c1 as [[] [] [] [] [] [] [] []]; try discriminate.
  destruct (span t) as [run rest] eqn:E.
  destruct run as [| r run]; [discriminate |].
  intro H.
  assert (Hcs : charset = String r run).
  { destruct rest as [| q rest]; [discriminate |].
    destruct q as [[] [] [] [] [] [] [] []]; try discriminate.
    destruct rest as [| e rest]; [discriminate |].
    destruct rest as [| q' rest]; [discriminate |].
    destruct q' as [[] [] [] [] [] [] [] []]; try discriminate.
    destruct (Strings.inCutset e "bqBQ"); [| discriminate].
    injection H as <-. reflexivity. }
  subst charset. split; [discriminate |].
  exact (span_run t E).
Qed.

Lemma FindStringSubmatch_sound (s charset : string) :
  FindStringSubmatch s = Some charset ->
  charset <> ""
  /\ forall c, In c (list_ascii_of_string charset) -> inClass c = true.
Proof.
  induction s as [| x s IH]; cbn [FindStringSubmatch].
  - destruct (matchHere "") eqn:E; [| discriminate].
    intro H. injection H as <-. exact (matchHere_sound "" E).
  - destruct (matchHere (String x s)) eqn:E.
    + intro H. injection H as <-. exact (matchHere_sound _ E).
    + exact IH.
Qed.

Lemma FindStringSubmatch_leading (charset rest : string) (e : ascii) :
  charset <> "" ->
  (forall c, In c (list_ascii_of_string charset) -> inClass c = true) ->
  Strings.inCutset e "bqBQ" = true ->
  FindStringSubmatch ("=?" ++ charset ++ "?" ++ String e ("?" ++ rest))
  = Some charset.
Proof.
  intros Hne Hclass He.
  assert (Hhere : matchHere ("=?" ++ charset ++ "?" ++ String e ("?" ++ rest))
                  = Some charset).
  { cbn [append matchHere]. unfold matchHere.
    change (charset ++ String "?" (String e (String "?" rest)))
      with (charset ++ String "?" (String e (String "?" rest))).
    rewrite (span_class charset (String e (String "?" rest)) Hclass).
    destruct charset; [contradiction |]. rewrite He. reflexivity. }
  cbn [append] in *.
  cbn [FindStringSubmatch]. rewrite Hhere. reflexivity.
Qed.

Lemma FindStringSubmatch_no_equals (s : string) :
  ~ In "="%char (list_ascii_of_string s) -> FindStringSubmatch s = None.
Proof.
  induction s as [| x s IH]; intro Hno; [reflexivity |].
  cbn [FindStringSubmatch].
  assert (Hx : x <> "="%char) by (intros ->; apply Hno; left; reflexivity).
  assert (Hhere : matchHere (String x s) = None).
  { unfold matchHere.
    destruct x as [[] [] [] [] [] [] [] []]; try reflexivity.
    contradiction Hx. reflexivity. }
  rewrite Hhere. apply IH. intro H. apply Hno. right. exact H.
Qed.

End SubjectCharsetFacts.

(** ** More on the header field parser *)
Module TrimFacts.
Import Strings.

Lemma TrimRight_subset (s cutset : string) (c : ascii) :
  In c (list_ascii_of_string (TrimRight s cutset)) ->
  In c (list_ascii_of_string s).
Proof.
  induction s as [| x s IH]; cbn [TrimRight]; [intros [] |].
  destruct (TrimRight s cutset) as [| y t] eqn:E.
  - destruct (inCutset x cutset); [intros [] |].
    intros [<- | []]. left. reflexivity.
  - intros [<- | H]; [left; reflexivity | right; apply IH; exact H].
Qed.

Lemma TrimLeft_subset (s cutset : string) (c : ascii) :
  In c (list_ascii_of_string (TrimLeft s cutset)) ->
  In c (list_ascii_of_string s).
Proof.
  induction s as [| x s IH]; cbn [TrimLeft]; [intros [] |].
  destruct (inCutset x cutset); [| intro H; exact H].
  intro H. right. apply IH. exact H.
Qed.

Lemma Trim_subset (s cutset : string) (c : ascii) :
  In c (list_ascii_of_string (Trim s cutset)) ->
  In c (list_ascii_of_string s).
Proof.
  unfold Trim. intro H.
  apply (TrimRight_subset s cutset). apply (TrimLeft_subset _ cutset). exact H.
Qed.

End TrimFacts.

Section HeaderParserMore.
Context {L : GoLib}.

(** The charset tag kept from the subject is empty or made of letters,
    digits, hyphens and underscores. *)
Theorem OriginalCharset_class (header : MIMEHeader) (c : ascii) :
  In c (list_ascii_of_string (OriginalCharset (fst (createEmailFromHeader header)))) ->
  SubjectCharset.inClass c = true.
Proof.
  rewrite OriginalCharset_header.
  destruct (SubjectCharset.FindStringSubmatch (TextProto.Get header "Subject"))
    as [charset |] eqn:E; [| intros []].
  destruct (SubjectCharsetFacts.FindStringSubmatch_sound _ E) as (_ & Hclass).
  apply Hclass.
Qed.

(** A subject that begins with an encoded word gives its charset tag,
    in the case it is written. *)
Theorem OriginalCharset_leading (header : MIMEHeader) (charset rest : string)
    (e : ascii) :
  TextProto.Get header "Subject"
  = "=?" ++ charset ++ "?" ++ String e ("?" ++ rest) ->
  charset <> "" ->
  (forall c, In c (list_ascii_of_string charset) ->
             SubjectCharset.inClass c = true) ->
  Strings.inCutset e "bqBQ" = true ->
  OriginalCharset (fst (createEmailFromHeader header)) = charset.
Proof.
  intros Hsubject Hne Hclass He. rewrite OriginalCharset_header, Hsubject.
  rewrite (@SubjectCharsetFacts.FindStringSubmatch_leading charset rest e Hne Hclass He).
  reflexivity.
Qed.

(** A subject without an equals sign gives no charset. *)
Theorem OriginalCharset_none (header : MIMEHeader) :
  ~ In "="%char (list_ascii_of_string (TextProto.Get header "Subject")) ->
  OriginalCharset (fst (createEmailFromHeader header)) = "".
Proof.
  intro Hno. rewrite OriginalCharset_header.
  rewrite (SubjectCharsetFacts.FindStringSubmatch_no_equals _ Hno).
  reflexivity.
Qed.

(** A message id neither begins nor ends with an angle bracket or a
    space. *)
Theorem parseMessageId_ends (hp : headerParser) (s : string) (c : ascii) :
  (forall t, parseMessageId hp s = String c t ->
             Strings.inCutset c "<> " = false)
  /\ (forall before, parseMessageId hp s = before ++ String c "" ->
                     Strings.inCutset c "<> " = false).
Proof.
  unfold parseMessageId. destruct (hp_err hp).
  - split; [discriminate |]. intros [| b before]; discriminate.
  - split.
    + intro t. apply StringsFacts.Trim_head.
    + intros front. apply StringsFacts.Trim_last.
Qed.

Lemma messageIds_from (hp : headerParser) (ws : list string)
    (acc : list string) (id : string) :
  In id (fold_left
           (fun (ids : list string) p =>
              if negb (Strings.Trim p spaceNewline =? "")
              then (ids ++ [parseMessageId hp p])%list
              else ids) ws acc) ->
  In id acc \/ exists p, In p ws /\ id = parseMessageId hp p.
Proof.
  revert acc. induction ws as [| w ws IH]; intros acc; cbn [fold_left].
  - intro H. left. exact H.
  - intro H. apply IH in H. destruct H as [H | (p & Hp & ->)].
    + destruct (negb (Strings.Trim w spaceNewline =? "")).
      * apply in_app_or in H. destruct H as [H | [<- | []]].
        -- left. exact H.
        -- right. exists w. split; [left; reflexivity | reflexivity].
      * left. exact H.
    + right. exists p. split; [right; exact Hp | reflexivity].
Qed.

(** No message id of a list holds a space. *)
Theorem parseMessageIdList_no_space (hp : headerParser) (s id : string) :
  In id (parseMessageIdList hp s) ->
  ~ In " "%char (list_ascii_of_string id).
Proof.
  unfold parseMessageIdList. destruct (hp_err hp) eqn:E; [intros [] |].
  intro H. apply messageIds_from in H. destruct H as [[] | (p & Hp & ->)].
  unfold parseMessageId. rewrite E. intro Hspace.
  apply TrimFacts.Trim_subset in Hspace.
  exact (@StringsFacts.Split_no_sep _ _ _ Hp Hspace).
Qed.

Lemma messageIds_blank (hp : headerParser) (ws : list string) :
  (forall w, In w ws -> Strings.Trim w spaceNewline = "") ->
  fold_left
    (fun (ids : list string) p =>
       if negb (Strings.Trim p spaceNewline =? "")
       then (ids ++ [parseMessageId hp p])%list
       else ids) ws []
  = [].
Proof.
  induction ws as [| w ws IH]; intro Hall; [reflexivity |].
  cbn [fold_left]. rewrite (Hall w (or_introl eq_refl)). cbn [String.eqb negb].
  apply IH. intros x Hx. apply Hall. right. exact Hx.
Qed.

Lemma Split_subset (s : string) (sep : ascii) (w : string) (c : ascii) :
  In w (Strings.Split s sep) -> In c (list_ascii_of_string w) ->
  In c (list_ascii_of_string s).
Proof.
  revert w. induction s as [| x s IH]; intros w; cbn [Strings.Split].
  - intros [<- | []] [].
  - destruct (x =? sep)%char.
    + intros [<- | Hw]; [intros [] |]. intro Hc. right. exact (IH w Hw Hc).
    + destruct (Strings.Split s sep) as [| w' ws] eqn:E.
      * intros [<- | []] [<- | []]. left. reflexivity.
      * intros [<- | Hw].
        -- intros [<- | Hc]; [left; reflexivity |].
           right. exact (IH w' (or_introl eq_refl) Hc).
        -- intro Hc. right. apply (IH w); [right; exact Hw | exact Hc].
Qed.

(** A list field made of spaces and newlines only gives no message id. *)
Theorem parseMessageIdList_blank (hp : headerParser) (s : string) :
  (forall c, In c (list_ascii_of_string s) ->
             Strings.inCutset c spaceNewline = true) ->
  parseMessageIdList hp s = [].
Proof.
  intro Hblank. unfold parseMessageIdList. destruct (hp_err hp); [reflexivity |].
  apply messageIds_blank. intros w Hw. apply StringsFacts.Trim_all.
  intros c Hc. apply Hblank. exact (@Split_subset _ _ _ _ Hw Hc).
Qed.

(** An address field made of spaces and newlines only is absent, and the
    address parser is not asked. *)
Theorem address_fields_blank (header : MIMEHeader) :
  (forall c, In c (list_ascii_of_string (TextProto.Get header "To")) ->
             Strings.inCutset c spaceNewline = true) ->
  (forall c, In c (list_ascii_of_string (TextProto.Get header "Sender")) ->
             Strings.inCutset c spaceNewline = true) ->
  To (fst (createEmailFromHeader header)) = []
  /\ Sender (fst (createEmailFromHeader header)) = None.
Proof.
  intros Hto Hsender. split.
  - change (To (fst (createEmailFromHeader header)))
      with (fst (parseAddressList (mkHeaderParser header None)
                   (TextProto.Get header "To"))).
    rewrite parseAddressList_blank by (apply StringsFacts.Trim_all; exact Hto).
    reflexivity.
  - change (Sender (fst (createEmailFromHeader header)))
      with (fst (parseAddress (mkHeaderParser header None)
                   (TextProto.Get header "Sender"))).
    rewrite parseAddress_blank by (apply StringsFacts.Trim_all; exact Hsender).
    reflexivity.
Qed.

(** An address list that parses is the field of the e-mail, whatever the
    other fields hold. *)
Theorem address_list_parsed (header : MIMEHeader) (addresses : list Address) :
  Strings.Trim (TextProto.Get header "To") spaceNewline <> "" ->
  mail_ParseAddressList (TextProto.Get header "To") = Ok addresses ->
  To (fst (createEmailFromHeader header)) = addresses.
Proof.
  intros Hblank Hparse.
  change (To (fst (createEmailFromHeader header)))
    with (fst (parseAddressList (mkHeaderParser header None)
                 (TextProto.Get header "To"))).
  unfold parseAddressList. cbn [hp_err].
  apply String.eqb_neq in Hblank. rewrite Hblank. cbn [negb].
  rewrite Hparse. reflexivity.
Qed.

(** The date of the e-mail is the time under the first layout, in the
    order of [formats], that parses the field. *)
Theorem Date_first_layout_wins (header : MIMEHeader)
    (before after : list string) (layout : string) (t : Time) :
  formats = (before ++ layout :: after)%list ->
  TextProto.Get header "Date" <> "" ->
  (forall f, In f before ->
     exists e, time_Parse f (TextProto.Get header "Date") = Err e) ->
  time_Parse layout (TextProto.Get header "Date") = Ok t ->
  Date (fst (createEmailFromHeader header)) = t.
Proof.
  intros Hformats Hempty Hfail Hok.
  change (Date (fst (createEmailFromHeader header)))
    with (fst (parseTime (mkHeaderParser header None)
                 (TextProto.Get header "Date"))).
  unfold parseTime. cbn [hp_err].
  apply String.eqb_neq in Hempty. rewrite Hempty, Hformats.
  rewrite (@tryFormats_first _ before after layout _ zeroTime t
             (mkHeaderParser header None) Hfail Hok).
  reflexivity.
Qed.

End HeaderParserMore.

Lemma OriginalCharset_class_witness :
  SubjectCharset.inClass "G" = true.
Proof.
  apply (@OriginalCharset_class Fixture.fixture
           [("Subject", ["=?GB2312?B?xOO6ww==?="])] "G"%char).
  simpl. tauto.
Defined.

Lemma OriginalCharset_leading_witness :
  @OriginalCharset Fixture.fixture
    (fst (@createEmailFromHeader Fixture.fixture
            [("Subject", ["=?GB2312?B?xOO6ww==?="])]))
  = "GB2312".
Proof.
  apply (@OriginalCharset_leading Fixture.fixture
           [("Subject", ["=?GB2312?B?xOO6ww==?="])] "GB2312" "xOO6ww==?=" "B"%char).
  - reflexivity.
  - discriminate.
  - intros c Hc. simpl in Hc.
    destruct Hc as [<- | [<- | [<- | [<- | [<- | [<- | []]]]]]]; reflexivity.
  - reflexivity.
Defined.

Lemma OriginalCharset_none_witness :
  @OriginalCharset Fixture.fixture
    (fst (@createEmailFromHeader Fixture.fixture [("Subject", ["greeting"])]))
  = "".
Proof.
  apply (@OriginalCharset_none Fixture.fixture [("Subject", ["greeting"])]).
  simpl. intuition discriminate.
Defined.

Lemma parseMessageId_ends_witness :
  Strings.inCutset "a" "<> " = false /\ Strings.inCutset "b" "<> " = false.
Proof.
  destruct (@parseMessageId_ends (mkHeaderParser [] None)
              " <a@b> " "a"%char) as [Hhead _].
  destruct (@parseMessageId_ends (mkHeaderParser [] None)
              " <a@b> " "b"%char) as [_ Hlast].
  split.
  - apply (Hhead "@b"). reflexivity.
  - apply (Hlast "a@"). reflexivity.
Defined.

Lemma parseMessageIdList_no_space_witness :
  ~ In " "%char (list_ascii_of_string "a@b").
Proof.
  apply (@parseMessageIdList_no_space (mkHeaderParser [] None)
           "<a@b>  <c@d>" "a@b").
  simpl. tauto.
Defined.

Lemma parseMessageIdList_blank_witness :
  parseMessageIdList (mkHeaderParser [] None) "   " = [].
Proof.
  apply parseMessageIdList_blank.
  intros c Hc. simpl in Hc. destruct Hc as [<- | [<- | [<- | []]]]; reflexivity.
Defined.

Lemma address_fields_blank_witness :
  @To Fixture.fixture
    (fst (@createEmailFromHeader Fixture.fixture [("To", ["  "])])) = []
  /\ @Sender Fixture.fixture
       (fst (@createEmailFromHeader Fixture.fixture [("To", ["  "])])) = None.
Proof.
  apply (@address_fields_blank Fixture.fixture [("To", ["  "])]).
  - intros c Hc. simpl in Hc. destruct Hc as [<- | [<- | []]]; reflexivity.
  - intros c [].
Defined.

Lemma address_list_parsed_witness :
  @To Fixture.fixture
    (fst (@createEmailFromHeader Fixture.fixture
            [("From", ["bogus"]); ("To", ["a@example.org"])]))
  = [mkAddress "" "a@example.org"].
Proof.
  apply (@address_list_parsed Fixture.fixture
           [("From", ["bogus"]); ("To", ["a@example.org"])]).
  - discriminate.
  - reflexivity.
Defined.

Lemma Date_first_layout_wins_witness :
  @Date Fixture.fixture
    (fst (@createEmailFromHeader Fixture.fixture
            [("Date", ["Mon, 02 Jan 2006 15:04:05 -0700"])]))
  = 63271836245%N.
Proof.
  apply (@Date_first_layout_wins Fixture.fixture
           [("Date", ["Mon, 02 Jan 2006 15:04:05 -0700"])]
           [] (tl formats) RFC1123Z).
  - reflexivity.
  - discriminate.
  - intros f [].
  - reflexivity.
Defined.

(** ** More on the multipart walkers *)
Section WalkersMore.
Context {L : GoLib}.

Lemma alternativeParts_front (related : Reader -> string -> option Bodies)
    (parts : list Part) (ending : option error)
    (tb hb : string) (efs : list EmbeddedFile)
    (tb0 hb0 : string) (efs0 : list EmbeddedFile) :
  alternativeParts related parts ending (tb ++ tb0) (hb ++ hb0) (efs ++ efs0)%list
  = match alternativeParts related parts ending tb0 hb0 efs0 with
    | None => None
    | Some (t, h, e, err) => Some (tb ++ t, hb ++ h, (efs ++ e)%list, err)
    end.
Proof.
  revert tb0 hb0 efs0.
  induction parts as [| part rest IH]; intros tb0 hb0 efs0; [reflexivity |].
  cbn [alternativeParts].
  destruct (mime_ParseMediaType _) as [[contentType params] | e]; [| reflexivity].
  destruct (contentType =? contentTypeTextPlain).
  { destruct (decodeContent _ _) as [newPart | e]; [| reflexivity].
    destruct (ReadAll newPart) as [ppContent [e |]]; [reflexivity |].
    rewrite StringsFacts.append_assoc. apply IH. }
  destruct (contentType =? contentTypeTextHtml).
  { destruct (decodeContent _ _) as [newPart | e]; [| reflexivity].
    destruct (ReadAll newPart) as [ppContent [e |]]; [reflexivity |].
    rewrite StringsFacts.append_assoc. apply IH. }
  destruct (contentType =? contentTypeMultipartRelated).
  { destruct (related _ _) as [[[[t h] e] [err |]] |]; try reflexivity.
    rewrite !StringsFacts.append_assoc, <- app_assoc. apply IH. }
  destruct (isEmbeddedFile part); [| reflexivity].
  destruct (decodeEmbeddedFile part) as [file | e]; [| reflexivity].
  rewrite <- app_assoc. apply IH.
Qed.

Lemma relatedParts_front (alternative : Reader -> string -> option Bodies)
    (parts : list Part) (ending : option error)
    (tb hb : string) (efs : list EmbeddedFile)
    (tb0 hb0 : string) (efs0 : list EmbeddedFile) :
  relatedParts alternative parts ending (tb ++ tb0) (hb ++ hb0) (efs ++ efs0)%list
  = match relatedParts alternative parts ending tb0 hb0 efs0 with
    | None => None
    | Some (t, h, e, err) => Some (tb ++ t, hb ++ h, (efs ++ e)%list, err)
    end.
Proof.
  revert tb0 hb0 efs0.
  induction parts as [| part rest IH]; intros tb0 hb0 efs0; [reflexivity |].
  cbn [relatedParts].
  destruct (mime_ParseMediaType _) as [[contentType params] | e]; [| reflexivity].
  destruct (contentType =? contentTypeTextPlain).
  { destruct (ReadAll _) as [ppContent [e |]]; [reflexivity |].
    rewrite StringsFacts.append_assoc. apply IH. }
  destruct (contentType =? contentTypeTextHtml).
  { destruct (ReadAll _) as [ppContent [e |]]; [reflexivity |].
    rewrite StringsFacts.append_assoc. apply IH. }
  destruct (contentType =? contentTypeMultipartAlternative).
  { destruct (alternative _ _) as [[[[t h] e] [err |]] |]; try reflexivity.
    rewrite !StringsFacts.append_assoc, <- app_assoc. apply IH. }
  destruct (isEmbeddedFile part); [| reflexivity].
  destruct (decodeEmbeddedFile part) as [file | e]; [| reflexivity].
  rewrite <- app_assoc. apply IH.
Qed.

(** The loops of [parseMultipartAlternative] and [parseMultipartRelated]
    only add to what they have gathered: the text, the HTML and the
    embedded files a walk returns, with or without an error, begin with
    those it started from. *)
Theorem walkers_keep_what_they_gathered
    (nested : Reader -> string -> option Bodies)
    (parts : list Part) (ending : option error)
    (tb hb : string) (efs : list EmbeddedFile)
    (tb' hb' : string) (efs' : list EmbeddedFile) (err : option error) :
  alternativeParts nested parts ending tb hb efs = Some (tb', hb', efs', err)
  \/ relatedParts nested parts ending tb hb efs = Some (tb', hb', efs', err) ->
  exists t h e, tb' = tb ++ t /\ hb' = hb ++ h /\ efs' = (efs ++ e)%list.
Proof.
  intros [H | H].
  - pose proof (alternativeParts_front nested parts ending tb hb efs "" "" [])
      as Hfront.
    rewrite !StringsFacts.append_nil_r, app_nil_r, H in Hfront.
    destruct (alternativeParts nested parts ending "" "" [])
      as [[[[t h] e] err0] |]; [| discriminate Hfront].
    injection Hfront as -> -> -> _. exists t, h, e. repeat split.
  - pose proof (relatedParts_front nested parts ending tb hb efs "" "" [])
      as Hfront.
    rewrite !StringsFacts.append_nil_r, app_nil_r, H in Hfront.
    destruct (relatedParts nested parts ending "" "" [])
      as [[[[t h] e] err0] |]; [| discriminate Hfront].
    injection Hfront as -> -> -> _. exists t, h, e. repeat split.
Qed.

Lemma mixedParts_front (alternative related : Reader -> string -> option Bodies)
    (parts : list Part) (ending : option error) (tb hb : string)
    (ats ats0 : list Attachment) (efs : list EmbeddedFile) :
  mixedParts alternative related parts ending tb hb (ats ++ ats0)%list efs
  = match mixedParts alternative related parts ending tb hb ats0 efs with
    | None => None
    | Some (t, h, a, e, err) => Some (t, h, (ats ++ a)%list, e, err)
    end.
Proof.
  revert tb hb ats0 efs.
  induction parts as [| part rest IH]; intros tb hb ats0 efs; [reflexivity |].
  cbn [mixedParts].
  destruct (mime_ParseMediaType _) as [[contentType params] | e]; [| reflexivity].
  destruct (contentType =? contentTypeMultipartAlternative).
  { destruct (alternative _ _) as [[[[t h] e] [err |]] |]; try reflexivity.
    apply IH. }
  destruct (contentType =? contentTypeMultipartRelated).
  { destruct (related _ _) as [[[[t h] e] [err |]] |]; try reflexivity.
    apply IH. }
  destruct (contentType =? contentTypeTextPlain).
  { destruct (decodeContent _ _) as [newPart | e]; [| reflexivity].
    destruct (ReadAll newPart) as [ppContent [e |]]; [reflexivity |].
    apply IH. }
  destruct (contentType =? contentTypeTextHtml).
  { destruct (decodeContent _ _) as [newPart | e]; [| reflexivity].
    destruct (ReadAll newPart) as [ppContent [e |]]; [reflexivity |].
    apply IH. }
  destruct (isAttachment part); [| reflexivity].
  destruct (decodeAttachment part) as [file | e]; [| reflexivity].
  rewrite <- app_assoc. apply IH.
Qed.

(** The loop of [parseMultipartMixed] never drops an attachment: the
    attachments a walk returns, with or without an error, begin with
    those it started from, nested multiparts or not. *)
Theorem mixed_keeps_attachments
    (alternative related : Reader -> string -> option Bodies)
    (parts : list Part) (ending : option error) (tb hb : string)
    (ats : list Attachment) (efs : list EmbeddedFile)
    (tb' hb' : string) (ats' : list Attachment) (efs' : list EmbeddedFile)
    (err : option error) :
  mixedParts alternative related parts ending tb hb ats efs
  = Some (tb', hb', ats', efs', err) ->
  exists more, ats' = (ats ++ more)%list.
Proof.
  intro H.
  pose proof (mixedParts_front alternative related parts ending tb hb ats [] efs)
    as Hfront.
  rewrite app_nil_r, H in Hfront.
  destruct (mixedParts alternative related parts ending tb hb [] efs)
    as [[[[[t h] a] e] err0] |]; [| discriminate Hfront].
  injection Hfront as _ _ -> _ _. exists a. reflexivity.
Qed.

(** A [multipart/mixed] body without a nested [multipart/alternative] or
    [multipart/related] part never gives an embedded file: the loop
    returns those it started from. *)
Theorem mixed_alone_embeds_nothing
    (alternative related : Reader -> string -> option Bodies)
    (parts : list Part) (ending : option error) (tb hb : string)
    (ats : list Attachment) (efs : list EmbeddedFile) :
  Forall (fun part =>
            forall contentType params,
              mime_ParseMediaType
                (TextProto.Get (part_Header part) "Content-Type")
              = Ok (contentType, params) ->
              contentType <> contentTypeMultipartAlternative
              /\ contentType <> contentTypeMultipartRelated) parts ->
  exists tb' hb' ats' err,
    mixedParts alternative related parts ending tb hb ats efs
    = Some (tb', hb', ats', efs, err).
Proof.
  intro Hparts. revert tb hb ats.
  induction Hparts as [| part rest Hpart _ IH]; intros tb hb ats.
  - cbn. eauto.
  - cbn [mixedParts].
    destruct (mime_ParseMediaType _) as [[contentType params] | e]; [| eauto].
    destruct (Hpart contentType params eq_refl) as (Halt & Hrel).
    apply String.eqb_neq in Halt. apply String.eqb_neq in Hrel.
    rewrite Halt, Hrel.
    destruct (contentType =? contentTypeTextPlain).
    { destruct (decodeContent _ _) as [newPart | e]; [| eauto].
      destruct (ReadAll newPart) as [ppContent [e |]]; eauto. }
    destruct (contentType =? contentTypeTextHtml).
    { destruct (decodeContent _ _) as [newPart | e]; [| eauto].
      destruct (ReadAll newPart) as [ppContent [e |]]; eauto. }
    destruct (isAttachment part); [| eauto].
    destruct (decodeAttachment part) as [file | e]; eauto.
Qed.

(** Plain parts one after the other: their decoded contents, each
    trimmed of one newline, are concatenated in the order of the parts,
    and the end of the part reader, [io.EOF] or an error, is the end of
    the walk. *)
Theorem alternative_concatenates
    (related : Reader -> string -> option Bodies)
    (parts : list Part) (contents : list string) (ending : option error)
    (tb hb : string) (efs : list EmbeddedFile) :
  Forall2 (fun part ppContent =>
             exists params newPart,
               mime_ParseMediaType
                 (TextProto.Get (part_Header part) "Content-Type")
               = Ok (contentTypeTextPlain, params)
               /\ decodeContent (part_body part)
                    (TextProto.Get (part_Header part) "Content-Transfer-Encoding")
                  = Ok newPart
               /\ ReadAll newPart = (ppContent, None)) parts contents ->
  alternativeParts related parts ending tb hb efs
  = Some (tb ++ fold_right append ""
                  (map (fun ppContent => Strings.TrimSuffix ppContent newline)
                       contents),
          hb, efs, ending).
Proof.
  intro Hparts. revert tb.
  induction Hparts as [| part ppContent parts contents Hpart _ IH]; intro tb.
  - cbn. rewrite StringsFacts.append_nil_r. reflexivity.
  - destruct Hpart as (params & newPart & Htype & Hdecode & Hread).
    rewrite (alternative_text_plain related part parts ending tb hb efs Htype).
    rewrite Hdecode, Hread, IH. cbn [map fold_right].
    rewrite StringsFacts.append_assoc. reflexivity.
Qed.

End WalkersMore.

Section Fuel.
Context {L : GoLib}.

Lemma relatedParts_extends (f g : Reader -> string -> option Bodies) :
  (forall r b x, f r b = Some x -> g r b = Some x) ->
  forall parts ending tb hb efs x,
    relatedParts f parts ending tb hb efs = Some x ->
    relatedParts g parts ending tb hb efs = Some x.
Proof.
  intros Hfg parts ending.
  induction parts as [| part rest IH]; intros tb hb efs x; [trivial |].
  cbn [relatedParts].
  destruct (mime_ParseMediaType _) as [[contentType params] | e]; [| trivial].
  destruct (contentType =? contentTypeTextPlain).
  { destruct (ReadAll _) as [ppContent [e |]]; [trivial | apply IH]. }
  destruct (contentType =? contentTypeTextHtml).
  { destruct (ReadAll _) as [ppContent [e |]]; [trivial | apply IH]. }
  destruct (contentType =? contentTypeMultipartAlternative).
  { destruct (f (part_body part) (param params "boundary")) as [y |] eqn:E;
      [| discriminate].
    rewrite (Hfg _ _ _ E). destruct y as [[[t h] e] [err |]]; [trivial | apply IH]. }
  destruct (isEmbeddedFile part); [| trivial].
  destruct (decodeEmbeddedFile part) as [file | e]; [apply IH | trivial].
Qed.

Lemma alternativeParts_extends (f g : Reader -> string -> option Bodies) :
  (forall r b x, f r b = Some x -> g r b = Some x) ->
  forall parts ending tb hb efs x,
    alternativeParts f parts ending tb hb efs = Some x ->
    alternativeParts g parts ending tb hb efs = Some x.
Proof.
  intros Hfg parts ending.
  induction parts as [| part rest IH]; intros tb hb efs x; [trivial |].
  cbn [alternativeParts].
  destruct (mime_ParseMediaType _) as [[contentType params] | e]; [| trivial].
  destruct (contentType =? contentTypeTextPlain).
  { destruct (decodeContent _ _) as [newPart | e]; [| trivial].
    destruct (ReadAll _) as [ppContent [e |]]; [trivial | apply IH]. }
  destruct (contentType =? contentTypeTextHtml).
  { destruct (decodeContent _ _) as [newPart | e]; [| trivial].
    destruct (ReadAll _) as [ppContent [e |]]; [trivial | apply IH]. }
  destruct (contentType =? contentTypeMultipartRelated).
  { destruct (f (part_body part) (param params "boundary")) as [y |] eqn:E;
      [| discriminate].
    rewrite (Hfg _ _ _ E). destruct y as [[[t h] e] [err |]]; [trivial | apply IH]. }
  destruct (isEmbeddedFile part); [| trivial].
  destruct (decodeEmbeddedFile part) as [file | e]; [apply IH | trivial].
Qed.

Lemma mixedParts_extends (f g f' g' : Reader -> string -> option Bodies) :
  (forall r b x, f r b = Some x -> g r b = Some x) ->
  (forall r b x, f' r b = Some x -> g' r b = Some x) ->
  forall parts ending tb hb ats efs x,
    mixedParts f f' parts ending tb hb ats efs = Some x ->
    mixedParts g g' parts ending tb hb ats efs = Some x.
Proof.
  intros Hfg Hfg' parts ending.
  induction parts as [| part rest IH]; intros tb hb ats efs x; [trivial |].
  cbn [mixedParts].
  destruct (mime_ParseMediaType _) as [[contentType params] | e]; [| trivial].
  destruct (contentType =? contentTypeMultipartAlternative).
  { destruct (f (part_body part) (param params "boundary")) as [y |] eqn:E;
      [| discriminate].
    rewrite (Hfg _ _ _ E). destruct y as [[[t h] e] [err |]]; [trivial | apply IH]. }
  destruct (contentType =? contentTypeMultipartRelated).
  { destruct (f' (part_body part) (param params "boundary")) as [y |] eqn:E;
      [| discriminate].
    rewrite (Hfg' _ _ _ E). destruct y as [[[t h] e] [err |]]; [trivial | apply IH]. }
  destruct (contentType =? contentTypeTextPlain).
  { destruct (decodeContent _ _) as [newPart | e]; [| trivial].
    destruct (ReadAll _) as [ppContent [e |]]; [trivial | apply IH]. }
  destruct (contentType =? contentTypeTextHtml).
  { destruct (decodeContent _ _) as [newPart | e]; [| trivial].
    destruct (ReadAll _) as [ppContent [e |]]; [trivial | apply IH]. }
  destruct (isAttachment part); [| trivial].
  destruct (decodeAttachment part) as [file | e]; [apply IH | trivial].
Qed.

Lemma walkers_one_more (fuel : nat) :
  (forall msg b x, parseMultipartRelated fuel msg b = Some x ->
                   parseMultipartRelated (S fuel) msg b = Some x)
  /\ (forall msg b x, parseMultipartAlternative fuel msg b = Some x ->
                      parseMultipartAlternative (S fuel) msg b = Some x).
Proof.
  induction fuel as [| fuel (IHr & IHa)]; [split; discriminate |].
  split; intros msg b x.
  - change (parseMultipartRelated (S fuel) msg b)
      with (let (parts, ending) := multipart_NewReader msg b in
            relatedParts (parseMultipartAlternative fuel) parts ending "" "" []).
    change (parseMultipartRelated (S (S fuel)) msg b)
      with (let (parts, ending) := multipart_NewReader msg b in
            relatedParts (parseMultipartAlternative (S fuel)) parts ending "" "" []).
    destruct (multipart_NewReader msg b) as [parts ending].
    apply relatedParts_extends. exact IHa.
  - change (parseMultipartAlternative (S fuel) msg b)
      with (let (parts, ending) := multipart_NewReader msg b in
            alternativeParts (parseMultipartRelated fuel) parts ending "" "" []).
    change (parseMultipartAlternative (S (S fuel)) msg b)
      with (let (parts, ending) := multipart_NewReader msg b in
            alternativeParts (parseMultipartRelated (S fuel)) parts ending "" "" []).
    destruct (multipart_NewReader msg b) as [parts ending].
    apply alternativeParts_extends. exact IHr.
Qed.

(** A walker that returns within a depth of nesting returns the same
    under any greater depth: the depth allowed changes no result. *)
Theorem walkers_depth (fuel fuel' : nat) (msg : Reader) (boundary : string) :
  fuel <= fuel' ->
  (forall x, parseMultipartRelated fuel msg boundary = Some x ->
             parseMultipartRelated fuel' msg boundary = Some x)
  /\ (forall x, parseMultipartAlternative fuel msg boundary = Some x ->
                parseMultipartAlternative fuel' msg boundary = Some x)
  /\ (forall x, parseMultipartMixed fuel msg boundary = Some x ->
                parseMultipartMixed fuel' msg boundary = Some x).
Proof.
  intro Hle. induction Hle as [| fuel' Hle (IHr & IHa & IHm)]; [auto |].
  destruct (walkers_one_more fuel') as (Hr & Ha).
  split; [| split]; intros x H.
  - apply Hr, IHr, H.
  - apply Ha, IHa, H.
  - apply IHm in H. clear IHr IHa IHm. destruct fuel' as [| fuel']; [discriminate H |].
    destruct (walkers_one_more fuel') as (Hr' & Ha').
    unfold parseMultipartMixed in *.
    destruct (multipart_NewReader msg boundary) as [parts ending].
    revert H. apply mixedParts_extends; assumption.
Qed.

End Fuel.

Lemma walkers_depth_witness :
  @parseMultipartMixed Fixture.fixture 5 (NewReader Fixture.mixedBody) "m"
  = Some ("hi", "<p>hi</p>", [], [], None).
Proof.
  assert (Hle : 2 <= 5) by lia.
  destruct (@walkers_depth Fixture.fixture 2 5 (NewReader Fixture.mixedBody) "m" Hle)
    as (_ & _ & Hmixed).
  apply Hmixed. reflexivity.
Defined.

Lemma walkers_keep_what_they_gathered_witness :
  exists t h e,
    "intro<p>hi</p>" = "intro" ++ t /\ "" = "" ++ h
    /\ [] = ([] ++ e : list EmbeddedFile)%list.
Proof.
  apply (@walkers_keep_what_they_gathered Fixture.fixture
           (@parseMultipartAlternative Fixture.fixture 0)
           [Fixture.encodedTextPart "7bit" "<p>hi</p>"] None
           "intro" "" [] "intro<p>hi</p>" "" [] None).
  right. reflexivity.
Defined.

Lemma mixed_keeps_attachments_witness :
  exists more,
    [mkAttachment "x" "text/x" (NewReader "");
     mkAttachment "a.txt" "application/pdf" (NewReader "%PDF")]
    = ([mkAttachment "x" "text/x" (NewReader "")] ++ more)%list.
Proof.
  apply (@mixed_keeps_attachments Fixture.fixture
           (@parseMultipartAlternative Fixture.fixture 0)
           (@parseMultipartRelated Fixture.fixture 0)
           [Fixture.filePart] None "" ""
           [mkAttachment "x" "text/x" (NewReader "")] []
           "" "" _ [] None).
  reflexivity.
Defined.

Lemma mixed_alone_embeds_nothing_witness :
  exists tb' hb' ats' err,
    @mixedParts Fixture.fixture (@parseMultipartAlternative Fixture.fixture 0)
      (@parseMultipartRelated Fixture.fixture 0)
      [Fixture.textPart "intro"; Fixture.imagePart] None "" "" [] []
    = Some (tb', hb', ats', [], err).
Proof.
  apply (@mixed_alone_embeds_nothing Fixture.fixture).
  apply Forall_cons; [| apply Forall_cons; [| apply Forall_nil]];
    intros contentType params H; cbn in H; injection H as <- _;
    split; intro E; discriminate E.
Defined.

Lemma alternative_concatenates_witness :
  @alternativeParts Fixture.fixture (@parseMultipartRelated Fixture.fixture 0)
    [Fixture.textPart "one"; Fixture.encodedTextPart "base64" "dHdvCg=="]
    (Some "unexpected EOF") "" "" []
  = Some ("onetwo", "", [], Some "unexpected EOF").
Proof.
  apply (@alternative_concatenates Fixture.fixture
           (@parseMultipartRelated Fixture.fixture 0)
           [Fixture.textPart "one"; Fixture.encodedTextPart "base64" "dHdvCg=="]
           ["one"; "two" ++ newline]).
  apply Forall2_cons; [| apply Forall2_cons; [| apply Forall2_nil]].
  - exists [], (NewReader "one").
    split; [reflexivity | split; reflexivity].
  - exists [], (NewReader ("two" ++ newline)).
    split; [reflexivity | split; reflexivity].
Defined.

(** ** More on the message assembler *)
Section AssemblerMore.
Context {L : GoLib}.

Lemma bodies_of_header (header : MIMEHeader) :
  TextBody (fst (createEmailFromHeader header)) = ""
  /\ HTMLBody (fst (createEmailFromHeader header)) = ""
  /\ Attachments (fst (createEmailFromHeader header)) = []
  /\ EmbeddedFiles (fst (createEmailFromHeader header)) = []
  /\ Content (fst (createEmailFromHeader header)) = None.
Proof. repeat split. Qed.

(** A message of a content type other than the five the assembler knows
    keeps its content as a reader, decoded by its transfer encoding, and
    gets no text, HTML or file; an error of the content decoder is the
    error of the decode. *)
Theorem ParseEmail_opaque (fuel : nat) (r : Reader) (header : MIMEHeader)
    (body : Reader) (contentType : string) (params : Params) :
  mail_ReadMessage r = Ok (header, body) ->
  parseContentType (TextProto.Get header "Content-Type")
  = Ok (contentType, params) ->
  ~ In contentType
      [contentTypeMultipartMixed; contentTypeMultipartAlternative;
       contentTypeMultipartRelated; contentTypeTextPlain; contentTypeTextHtml] ->
  exists email,
    ParseEmail fuel r
    = Some (Some email,
            match decodeContent body
                    (TextProto.Get header "Content-Transfer-Encoding") with
            | Ok _ => None
            | Err e => Some e
            end)
    /\ Content email
       = match decodeContent body
                 (TextProto.Get header "Content-Transfer-Encoding") with
         | Ok decoded => Some decoded
         | Err _ => None
         end
    /\ TextBody email = "" /\ HTMLBody email = ""
    /\ Attachments email = [] /\ EmbeddedFiles email = [].
Proof.
  intros Hread Htype Hnot.
  rewrite (ParseEmail_body fuel _ Hread Htype). unfold parseBody.
  repeat match goal with
  | |- context [String.eqb contentType ?t] =>
      destruct (String.eqb_spec contentType t) as [E | _];
      [exfalso; apply Hnot; rewrite E; simpl; tauto |]
  end.
  destruct (decodeContent body _) as [decoded | e];
    rewrite resolveCharsets_eq;
    cbn [OriginalCharset TextBody HTMLBody setContent setContentType assign];
    change (TextBody (fst (createEmailFromHeader header))) with "";
    change (HTMLBody (fst (createEmailFromHeader header))) with "";
    rewrite !resolveCharset_empty; cbv beta iota;
    eexists; repeat split.
Qed.

(** A single-part text message with an unknown transfer encoding fails
    the decode with the decoder's error: no body is set. *)
Theorem ParseEmail_text_unknown_encoding (fuel : nat) (r : Reader)
    (header : MIMEHeader) (body : Reader) (contentType : string)
    (params : Params) :
  mail_ReadMessage r = Ok (header, body) ->
  parseContentType (TextProto.Get header "Content-Type")
  = Ok (contentType, params) ->
  contentType = contentTypeTextPlain \/ contentType = contentTypeTextHtml ->
  ~ In (ToLower (TrimSpace (TextProto.Get header "Content-Transfer-Encoding")))
       ["base64"; "7bit"; "8bit"; "binary"; "quoted-printable";
        "quotedprintable"; ""] ->
  exists email,
    ParseEmail fuel r
    = Some (Some email,
            Some ("unknown encoding: "
                  ++ TextProto.Get header "Content-Transfer-Encoding"))
    /\ TextBody email = "" /\ HTMLBody email = "".
Proof.
  intros Hread Htype Hkind Hunknown.
  rewrite (ParseEmail_body fuel _ Hread Htype). unfold parseBody.
  rewrite (decodeContent_unknown body _ Hunknown).
  destruct Hkind as [-> | ->]; eexists; repeat split.
Qed.

(** A charset tag in the subject is the charset the text body is
    converted from: the detector is not asked, and the result and the
    error of the conversion are those of the decode. *)
Theorem ParseEmail_declared_charset (fuel : nat) (r : Reader)
    (header : MIMEHeader) (body newPart : Reader) (params : Params)
    (charset message : string) (ignored : option error) :
  mail_ReadMessage r = Ok (header, body) ->
  parseContentType (TextProto.Get header "Content-Type")
  = Ok (contentTypeTextPlain, params) ->
  decodeContent body (TextProto.Get header "Content-Transfer-Encoding")
  = Ok newPart ->
  ReadAll newPart = (message, ignored) ->
  Strings.TrimSuffix message newline <> "" ->
  SubjectCharset.FindStringSubmatch (TextProto.Get header "Subject")
  = Some charset ->
  exists email,
    ParseEmail fuel r
    = Some (Some email,
            snd (convertToUtf8String (Strings.TrimSuffix message newline) charset))
    /\ TextBody email
       = fst (convertToUtf8String (Strings.TrimSuffix message newline) charset)
    /\ OriginalCharset email = charset.
Proof.
  intros Hread Htype Hdecode Hall Htext Hsubject.
  rewrite (ParseEmail_body fuel _ Hread Htype). unfold parseBody.
  change (contentTypeTextPlain =? contentTypeMultipartMixed) with false.
  change (contentTypeTextPlain =? contentTypeMultipartAlternative) with false.
  change (contentTypeTextPlain =? contentTypeMultipartRelated) with false.
  change (contentTypeTextPlain =? contentTypeTextPlain) with true.
  cbv iota. rewrite Hdecode, Hall.
  rewrite resolveCharsets_eq.
  cbn [OriginalCharset TextBody HTMLBody setTextBody setContentType assign].
  rewrite OriginalCharset_header, Hsubject.
  change (HTMLBody (fst (createEmailFromHeader header))) with "".
  destruct (SubjectCharsetFacts.FindStringSubmatch_sound _ Hsubject) as (Hne & _).
  rewrite (resolveCharset_declared None Htext Hne).
  destruct (convertToUtf8String (Strings.TrimSuffix message newline) charset)
    as [text err].
  cbv beta iota. rewrite resolveCharset_empty.
  eexists. split; [reflexivity | split; [reflexivity |]].
  cbn [OriginalCharset setHTMLBody setTextBody setContentType assign].
  rewrite OriginalCharset_header, Hsubject. reflexivity.
Qed.

(** The error that ends the reading of a single-part body is dropped
    for [text/plain], where the bytes read before it make the text, and
    returned for [text/html]. *)
Theorem ParseEmail_read_error (fuel : nat) (r : Reader)
    (header : MIMEHeader) (read : string) (e : error) (contentType : string)
    (params : Params) :
  mail_ReadMessage r = Ok (header, mkReader read (Some e)) ->
  parseContentType (TextProto.Get header "Content-Type")
  = Ok (contentType, params) ->
  TextProto.Get header "Content-Transfer-Encoding" = "" ->
  Strings.TrimSuffix read newline = "" ->
  (contentType = contentTypeTextPlain ->
   exists email,
     ParseEmail fuel r = Some (Some email, None) /\ TextBody email = "")
  /\ (contentType = contentTypeTextHtml ->
      exists email,
        ParseEmail fuel r = Some (Some email, Some e) /\ HTMLBody email = "").
Proof.
  intros Hread Htype Hcte Hempty.
  rewrite (ParseEmail_body fuel _ Hread Htype). unfold parseBody.
  rewrite Hcte, decodeContent_empty. unfold ReadAll. cbn [content failure].
  split; intros ->.
  - change (contentTypeTextPlain =? contentTypeMultipartMixed) with false.
    change (contentTypeTextPlain =? contentTypeMultipartAlternative) with false.
    change (contentTypeTextPlain =? contentTypeMultipartRelated) with false.
    change (contentTypeTextPlain =? contentTypeTextPlain) with true.
    cbv iota. rewrite Hempty, resolveCharsets_eq.
    cbn [OriginalCharset TextBody HTMLBody setTextBody setContentType assign].
    change (HTMLBody (fst (createEmailFromHeader header))) with "".
    rewrite !resolveCharset_empty. cbv beta iota.
    eexists. repeat split.
  - eexists. repeat split.
Qed.

End AssemblerMore.

Lemma ParseEmail_opaque_witness :
  exists email,
    @ParseEmail MoreMessages.library 0 (NewReader MoreMessages.pdfMessage)
    = Some (Some email, None)
    /\ @Content MoreMessages.library email = Some (NewReader "hello")
    /\ @TextBody MoreMessages.library email = ""
    /\ @HTMLBody MoreMessages.library email = ""
    /\ @Attachments MoreMessages.library email = []
    /\ @EmbeddedFiles MoreMessages.library email = [].
Proof.
  assert (Hread : @mail_ReadMessage MoreMessages.library
                    (NewReader MoreMessages.pdfMessage)
                  = Ok ([("Content-Type", ["application/pdf"]);
                         ("Content-Transfer-Encoding", ["base64"])],
                        NewReader ("aGVsbG8=" ++ MoreMessages.crlf)))
    by reflexivity.
  assert (Htype : @parseContentType MoreMessages.library
                    (TextProto.Get [("Content-Type", ["application/pdf"]);
                                    ("Content-Transfer-Encoding", ["base64"])]
                       "Content-Type")
                  = Ok ("application/pdf", [])) by reflexivity.
  assert (Hnot : ~ In "application/pdf"
                     [contentTypeMultipartMixed; contentTypeMultipartAlternative;
                      contentTypeMultipartRelated; contentTypeTextPlain;
                      contentTypeTextHtml])
    by (intro H; vm_compute in H;
        repeat (destruct H as [H | H]; [discriminate H |]); exact H).
  exact (@ParseEmail_opaque MoreMessages.library 0 _ _ _ _ _ Hread Htype Hnot).
Defined.

Lemma ParseEmail_text_unknown_encoding_witness :
  exists email,
    @ParseEmail MoreMessages.library 0 (NewReader MoreMessages.uuencodeMessage)
    = Some (Some email, Some "unknown encoding: x-uuencode")
    /\ @TextBody MoreMessages.library email = ""
    /\ @HTMLBody MoreMessages.library email = "".
Proof.
  assert (Hread : @mail_ReadMessage MoreMessages.library
                    (NewReader MoreMessages.uuencodeMessage)
                  = Ok ([("Content-Type", ["text/plain"]);
                         ("Content-Transfer-Encoding", ["x-uuencode"])],
                        NewReader ("hi" ++ MoreMessages.crlf)))
    by reflexivity.
  assert (Htype : @parseContentType MoreMessages.library
                    (TextProto.Get [("Content-Type", ["text/plain"]);
                                    ("Content-Transfer-Encoding", ["x-uuencode"])]
                       "Content-Type")
                  = Ok ("text/plain", [])) by reflexivity.
  assert (Hunknown :
            ~ In (@ToLower MoreMessages.library
                    (@TrimSpace MoreMessages.library
                       (TextProto.Get [("Content-Type", ["text/plain"]);
                                       ("Content-Transfer-Encoding", ["x-uuencode"])]
                          "Content-Transfer-Encoding")))
                 ["base64"; "7bit"; "8bit"; "binary"; "quoted-printable";
                  "quotedprintable"; ""])
    by (intro H; vm_compute in H;
        repeat (destruct H as [H | H]; [discriminate H |]); exact H).
  exact (@ParseEmail_text_unknown_encoding MoreMessages.library 0 _ _ _ _ _
           Hread Htype (or_introl eq_refl) Hunknown).
Defined.

Lemma ParseEmail_declared_charset_witness :
  exists email,
    @ParseEmail MoreMessages.library 0 (NewReader MoreMessages.taggedMessage)
    = Some (Some email, None)
    /\ @TextBody MoreMessages.library email = "hi"
    /\ @OriginalCharset MoreMessages.library email = "GB2312".
Proof.
  assert (Hread : @mail_ReadMessage MoreMessages.library
                    (NewReader MoreMessages.taggedMessage)
                  = Ok ([("Subject", ["=?GB2312?B?xOO6ww==?="])], NewReader "hi"))
    by reflexivity.
  assert (Htype : @parseContentType MoreMessages.library
                    (TextProto.Get [("Subject", ["=?GB2312?B?xOO6ww==?="])]
                       "Content-Type")
                  = Ok (contentTypeTextPlain, [])) by reflexivity.
  assert (Hdecode : @decodeContent MoreMessages.library (NewReader "hi")
                      (TextProto.Get [("Subject", ["=?GB2312?B?xOO6ww==?="])]
                         "Content-Transfer-Encoding")
                    = Ok (NewReader "hi")) by reflexivity.
  assert (Hall : ReadAll (NewReader "hi") = ("hi", None)) by reflexivity.
  assert (Htext : Strings.TrimSuffix "hi" newline <> "") by discriminate.
  assert (Hsubject : SubjectCharset.FindStringSubmatch
                       (TextProto.Get [("Subject", ["=?GB2312?B?xOO6ww==?="])]
                          "Subject")
                     = Some "GB2312") by reflexivity.
  exact (@ParseEmail_declared_charset MoreMessages.library 0 _ _ _ _ _ _ _ _
           Hread Htype Hdecode Hall Htext Hsubject).
Defined.

Lemma ParseEmail_read_error_witness :
  exists email,
    @ParseEmail MoreMessages.library 0
      (mkReader MoreMessages.htmlMessage (Some "connection reset"))
    = Some (Some email, Some "connection reset")
    /\ @HTMLBody MoreMessages.library email = "".
Proof.
  assert (Hread : @mail_ReadMessage MoreMessages.library
                    (mkReader MoreMessages.htmlMessage (Some "connection reset"))
                  = Ok ([("Content-Type", ["text/html"])],
                        mkReader "" (Some "connection reset")))
    by reflexivity.
  assert (Htype : @parseContentType MoreMessages.library
                    (TextProto.Get [("Content-Type", ["text/html"])] "Content-Type")
                  = Ok ("text/html", [])) by reflexivity.
  destruct (@ParseEmail_read_error MoreMessages.library 0 _ _ _ _ _ _
              Hread Htype eq_refl eq_refl) as [_ Hhtml].
  apply Hhtml. reflexivity.
Defined.

(** ** The session *)
Section SessionFacts.
Context {L : GoLib}.
Variables Conn HandlerFunc AuthFunc RcptOptions : Type.
Variable call :
  HandlerFunc -> Session Conn HandlerFunc AuthFunc
  -> Session Conn HandlerFunc AuthFunc * option error.

(** Of the recipients given one after the other the session keeps the
    last one only, and none when the last one does not parse; the sender
    stays. *)
Theorem Rcpt_keeps_the_last (s : Session Conn HandlerFunc AuthFunc)
    (recipients : list string) (final : string) (opts : option RcptOptions) :
  let s' := fold_left (fun s to => fst (Rcpt s to opts))
              (recipients ++ [final]) s in
  session_To s'
  = match mail_ParseAddress final with
    | Ok address => Some address
    | Err _ => None
    end
  /\ session_From s' = session_From s.
Proof.
  cbv zeta. rewrite fold_left_app. cbn [fold_left].
  assert (Hfrom : forall tos (s0 : Session Conn HandlerFunc AuthFunc),
            session_From (fold_left (fun s to => fst (Rcpt s to opts)) tos s0)
            = session_From s0).
  { induction tos as [| to tos IH]; intro s0; [reflexivity |].
    cbn [fold_left]. rewrite IH. unfold Rcpt.
    destruct (mail_ParseAddress to); reflexivity. }
  split.
  - unfold Rcpt at 1. destruct (mail_ParseAddress final); reflexivity.
  - unfold Rcpt at 1. destruct (mail_ParseAddress final); cbn [fst session_From];
      apply Hfrom.
Qed.

(** From the backend to the handler: a session made by a backend, given
    a sender, a recipient and the data, calls the backend's handler on a
    session that holds the parsed sender and recipient (none for one that
    does not parse) and the data; without a handler it fails and calls
    nothing. *)
Theorem Data_after_envelope (a : option AuthFunc) (h : option HandlerFunc)
    (c : Conn) (from to : string) (opts : option RcptOptions) (r : Reader) :
  let address := fun s => match mail_ParseAddress s with
                          | Ok address => Some address
                          | Err _ => None
                          end in
  let s0 := fst (Backend_NewSession (NewBackend a h) c) in
  let s1 := fst (Mail s0 from None) in
  let s2 := fst (Rcpt s1 to opts) in
  Data call s2 r
  = match h with
    | Some handle =>
        call handle
          (mkSession c (address from) (address to) h (Some r) a None None)
    | None =>
        (mkSession c (address from) (address to) None None a None None,
         Some "internal error: no handler")
    end.
Proof.
  cbv zeta. unfold Backend_NewSession, NewBackend, NewSession, Mail, Rcpt, Data.
  cbn [fst backend_handler backend_auther].
  destruct (mail_ParseAddress from), (mail_ParseAddress to), h; reflexivity.
Qed.

End SessionFacts.
